(** * Throughmark: the consensus-and-verification pipeline of [ImageAnalyzer]

    A shallow embedding of [src/llm/analyzer.ts], of the parts of
    [image/processor.ts], [grid/generator.ts], [utils/gridAccuracy.ts] and
    [llm/types.ts] it relies on, and the properties of the pipeline.

    Conventions of the embedding:
    - a JavaScript string is the list of its UTF-16 code units;
    - a JavaScript number is kept abstract behind the class [Number] with two
      instances: exact rationals extended with the infinities and NaN, used
      for the general statements, and IEEE 754 binary64, used to evaluate
      the same definitions the way the engine does;
    - a response text is represented by what [JSON.parse] makes of it;
    - the calls to the vision backend and to the image library are oracles
      of the environment; every call made is recorded in a log. *)

From Stdlib Require Import List String Ascii Bool NArith ZArith QArith.
From Stdlib Require Import Lia Sorted Permutation.
From Stdlib Require Import PrimFloat Uint63.
Import ListNotations.
Close Scope Q_scope.
#[local] Set Warnings "-register-all".
Open Scope N_scope.

(* ================================================================== *)
(** * JavaScript values *)
(* ================================================================== *)

Module JS.

(** ** Strings *)

Abbreviation codeUnit := N (only parsing).
Abbreviation jsstring := (list N) (only parsing).

(** The code units of an ASCII literal. *)
Definition js (s : string) : jsstring :=
  map N_of_ascii (list_ascii_of_string s).
Arguments js s%_string.

Definition jsstring_dec : forall a b : jsstring, {a = b} + {a <> b} :=
  list_eq_dec N.eq_dec.

Definition str_eqb (a b : jsstring) : bool :=
  if jsstring_dec a b then true else false.

(** [String.fromCharCode(n)]: one code unit, [ToUint16 n]. *)
Definition String_fromCharCode (n : Z) : jsstring :=
  [Z.to_N (n mod 65536)].

(** Decimal digits of a natural number, most significant first. The fuel
    is the binary size of the number, which bounds its decimal size. *)
Fixpoint digitsFrom (fuel : nat) (n : N) (acc : jsstring) : jsstring :=
  match fuel with
  | O => acc
  | S fuel' =>
      let acc' := (48 + n mod 10) :: acc in
      if n <? 10 then acc' else digitsFrom fuel' (n / 10) acc'
  end.

Definition digits (n : N) : jsstring :=
  digitsFrom (S (N.to_nat (N.size n))) n [].

(** [ToString] of an integral number (below 1e21 in absolute value, where
    JavaScript prints every digit). *)
Definition Number_toString (z : Z) : jsstring :=
  match z with
  | Zneg p => 45 :: digits (Npos p)
  | _ => digits (Z.to_N z)
  end.

(** ** Numbers *)

(** The arithmetic the analyzer performs on non-integral numbers. *)
Class Number (num : Type) := {
  lit : Z -> positive -> num;      (* the literal p/q, e.g. 0.2 = 2/10 *)
  add : num -> num -> num;
  mul : num -> num -> num;
  div : num -> num -> num
}.

(** Exact arithmetic: a rational (kept in lowest terms, so that equal
    numbers are equal terms), an infinity or NaN. *)
Inductive exact :=
| Fin (q : Q)
| PosInf
| NegInf
| NaN.

Definition exact_add (a b : exact) : exact :=
  match a, b with
  | NaN, _ | _, NaN => NaN
  | PosInf, NegInf | NegInf, PosInf => NaN
  | PosInf, _ | _, PosInf => PosInf
  | NegInf, _ | _, NegInf => NegInf
  | Fin x, Fin y => Fin (Qred (x + y)%Q)
  end.

Definition signed_inf (c : comparison) : exact :=
  match c with Lt => NegInf | Eq => NaN | Gt => PosInf end.

Definition Q_sign (x : Q) : comparison := (x ?= 0)%Q.

Definition exact_sign (a : exact) : option comparison :=
  match a with
  | Fin x => Some (Q_sign x)
  | PosInf => Some Gt
  | NegInf => Some Lt
  | NaN => None
  end.

Definition sign_mul (a b : comparison) : comparison :=
  match a, b with
  | Eq, _ | _, Eq => Eq
  | Lt, Lt | Gt, Gt => Gt
  | _, _ => Lt
  end.

Definition exact_mul (a b : exact) : exact :=
  match a, b with
  | Fin x, Fin y => Fin (Qred (x * y)%Q)
  | _, _ =>
      match exact_sign a, exact_sign b with
      | Some sa, Some sb => signed_inf (sign_mul sa sb)
      | _, _ => NaN
      end
  end.

Definition exact_div (a b : exact) : exact :=
  match a, b with
  | NaN, _ | _, NaN => NaN
  | Fin x, Fin y =>
      match Q_sign y with
      | Eq => signed_inf (Q_sign x)              (* x/0, and 0/0 = NaN *)
      | _ => Fin (Qred (x / y)%Q)
      end
  | Fin _, _ => Fin 0%Q
  | _, Fin y =>
      match exact_sign a with
      | Some sa => signed_inf (sign_mul sa (match Q_sign y with Lt => Lt | _ => Gt end))
      | None => NaN
      end
  | _, _ => NaN
  end.

#[global] Instance exact_Number : Number exact := {
  lit p q := Fin (Qred (Qmake p q));
  add := exact_add;
  mul := exact_mul;
  div := exact_div
}.

(** IEEE 754 binary64, the numbers of the engine. A literal p/q with p and
    q below 2^53 is the correctly rounded quotient of two exact floats. *)
Definition float_of_Z (z : Z) : float :=
  match z with
  | Zneg p => PrimFloat.opp (PrimFloat.of_uint63 (Uint63.of_Z (Zpos p)))
  | _ => PrimFloat.of_uint63 (Uint63.of_Z z)
  end.

#[global] Instance binary64_Number : Number float := {
  lit p q := PrimFloat.div (float_of_Z p) (float_of_Z (Zpos q));
  add := PrimFloat.add;
  mul := PrimFloat.mul;
  div := PrimFloat.div
}.

Definition ofN {num} `{Number num} (n : N) : num := lit (Z.of_N n) 1.
Definition ofZ {num} `{Number num} (z : Z) : num := lit z 1.

(** ** JSON values, as [JSON.parse] returns them *)

Inductive json :=
| JNull
| JBool (b : bool)
| JNum (q : Q)
| JStr (s : jsstring)
| JArr (items : list json)
| JObj (fields : list (jsstring * json)).

(** [ToBoolean]. *)
Definition truthy (v : json) : bool :=
  match v with
  | JNull => false
  | JBool b => b
  | JNum q => negb (Qeq_bool q 0)
  | JStr s => negb (str_eqb s [])
  | JArr _ | JObj _ => true
  end.

(** The key equality of [Map]: primitives by value, arrays and objects by
    identity. Every array or object that [JSON.parse] builds is a fresh
    one, so two of them met as keys are never the same. *)
Definition sameValueZero (a b : json) : bool :=
  match a, b with
  | JNull, JNull => true
  | JBool x, JBool y => Bool.eqb x y
  | JNum x, JNum y => Qeq_bool x y
  | JStr x, JStr y => str_eqb x y
  | _, _ => false
  end.

(** The own property [k] of an object; the keys of a parsed object are
    distinct. *)
Fixpoint field (k : jsstring) (fields : list (jsstring * json)) : option json :=
  match fields with
  | [] => None
  | (k', v) :: rest => if str_eqb k k' then Some v else field k rest
  end.

End JS.
Export JS.

(* ================================================================== *)
(** * Cell labels *)
(* ================================================================== *)

(** [grid/generator.ts], [generateLabels]: the label drawn in the cell at
    row index [row] and column index [col] (both count from 0) is
    [`${String.fromCharCode(65 + row)}${col + 1}`]. *)
Module GridGenerator.

Definition label (row col : N) : jsstring :=
  String_fromCharCode (65 + Z.of_N row) ++ Number_toString (Z.of_N col + 1).

(** The labels of a [rows] x [cols] grid, row by row, in drawing order. *)
Definition generateLabels (rows cols : N) : list jsstring :=
  flat_map (fun row => map (fun col => label (N.of_nat row) (N.of_nat col))
                           (seq 0 (N.to_nat cols)))
           (seq 0 (N.to_nat rows)).

End GridGenerator.

(** [utils/gridAccuracy.ts], [boundingBoxToGridCells]:
    [const cellId = String.fromCharCode(65 + row) + (col + 1)]. The loop
    indices come from [Math.floor] and may be any integer. *)
Module GridAccuracy.


End GridAccuracy.

(* ================================================================== *)
(** * Sorting with [localeCompare(b, undefined, { numeric: true })] *)
(* ================================================================== *)

Module Collation.

(** Numeric collation reads a string as a sequence of keys: every maximal
    run of decimal digits is one key, its value as a number; every other
    code unit is a key of its own. Two strings compare as their key
    sequences do, a number before a letter. Letters are ordered here by
    code unit, which is the collation order among the upper-case letters
    A to Z; no other alphabet is modelled. *)
Inductive key :=
| KNum (n : N)
| KChar (c : codeUnit).

Definition isDigit (c : codeUnit) : bool := (48 <=? c) && (c <=? 57).

Definition flush (run : option N) : list key :=
  match run with
  | Some v => [KNum v]
  | None => []
  end.

Fixpoint keys (s : jsstring) (run : option N) : list key :=
  match s with
  | [] => flush run
  | c :: s' =>
      if isDigit c
      then keys s' (Some (10 * match run with Some v => v | None => 0 end + (c - 48)))
      else flush run ++ KChar c :: keys s' None
  end.

Definition key_compare (a b : key) : comparison :=
  match a, b with
  | KNum x, KNum y => x ?= y
  | KNum _, KChar _ => Lt
  | KChar _, KNum _ => Gt
  | KChar x, KChar y => x ?= y
  end.

Fixpoint keys_compare (a b : list key) : comparison :=
  match a, b with
  | [], [] => Eq
  | [], _ :: _ => Lt
  | _ :: _, [] => Gt
  | x :: a', y :: b' =>
      match key_compare x y with
      | Eq => keys_compare a' b'
      | c => c
      end
  end.

Definition localeCompare (a b : jsstring) : comparison :=
  keys_compare (keys a None) (keys b None).

(** [Array.prototype.sort] is stable; with a consistent comparator every
    stable sort returns the same array, which insertion from the right
    computes. *)
Section Sort.
Context {A : Type} (cmp : A -> A -> comparison).

Fixpoint insert (x : A) (l : list A) : list A :=
  match l with
  | [] => [x]
  | y :: l' =>
      match cmp x y with
      | Gt => y :: insert x l'
      | _ => x :: l
      end
  end.

Fixpoint sort (l : list A) : list A :=
  match l with
  | [] => []
  | x :: l' => insert x (sort l')
  end.

End Sort.

End Collation.

(* ================================================================== *)
(** * Outcomes *)
(* ================================================================== *)

Inductive error :=
| TypeError                      (* thrown by the engine *)
| SyntaxError                    (* thrown by [JSON.parse] *)
| DimensionsError                (* "Could not get image dimensions" *)
| ParseFailure                   (* "Failed to parse analysis response: ..." *)
| UnsupportedProvider            (* "Unsupported LLM provider: ..." *)
| BackendError (code : N)        (* a rejected backend call *)
| WriteError (code : N).         (* a rejected [writeFile] *)

Inductive result (A : Type) :=
| Ok (a : A)
| Throw (e : error).
Arguments Ok {A} a.
Arguments Throw {A} e.

(* ================================================================== *)
(** * Vote aggregation ([performInitialAnalysis], after the passes) *)
(* ================================================================== *)

Module Votes.
Import Collation.

(** [results.flat()]: one level; what is not an array stays an element. *)
Definition flat (results : list json) : list json :=
  flat_map (fun r => match r with JArr items => items | v => [v] end) results.

(** [Map<string, number>], in insertion order. *)
Definition Map := list (json * nat).

Fixpoint Map_get (m : Map) (k : json) : option nat :=
  match m with
  | [] => None
  | (k', v) :: m' => if sameValueZero k' k then Some v else Map_get m' k
  end.

Fixpoint Map_set (m : Map) (k : json) (v : nat) : Map :=
  match m with
  | [] => [(k, v)]
  | (k', v') :: m' =>
      if sameValueZero k' k then (k', v) :: m' else (k', v') :: Map_set m' k v
  end.

(** [(cellCounts.get(cell) || 0) + 1] for every cell of the flattened
    results. *)
Definition count_step (cellCounts : Map) (cell : json) : Map :=
  Map_set cellCounts cell
    (match Map_get cellCounts cell with Some n => n | None => 0 end + 1)%nat.

Definition cellCounts (cells : list json) : Map :=
  fold_left count_step cells [].

(** [.filter(([_, count]) => count >= 2)
     .flatMap(([cell, count]) => Array(count).fill(cell))]. *)
Definition repeated (m : Map) : list json :=
  flat_map (fun '(cell, count) => repeat cell count)
           (filter (fun '(_, count) => (2 <=? count)%nat) m).

Fixpoint strings (l : list json) : option (list jsstring) :=
  match l with
  | [] => Some []
  | JStr s :: l' => option_map (cons s) (strings l')
  | _ :: _ => None
  end.

(** [.sort((a, b) => a.localeCompare(b, undefined, { numeric: true }))].
    The comparator is not called on fewer than two elements. An element
    that is not a string has no [localeCompare]: the comparator throws a
    TypeError once it is called with one on the left. Which pairs are
    compared is up to the engine; every element kept by the filter comes at
    least twice, so the sort has to compare it with its own copy, and the
    model lets the sort throw whenever a kept element is not a string. *)
Definition sortCells (l : list json) : result (list json) :=
  match l with
  | [] | [_] => Ok l
  | _ =>
      match strings l with
      | Some ss => Ok (map JStr (sort localeCompare ss))
      | None => Throw TypeError
      end
  end.

Definition allCells (results : list json) : result (list json) :=
  sortCells (repeated (cellCounts (flat results))).

End Votes.


(* ================================================================== *)
(** * The image processor ([image/processor.ts]) *)
(* ================================================================== *)

Module Processor.

Inductive AnnotationType := highlight | circle | arrow.

Record GridConfig := { rows : N; cols : N }.

Record Region := {
  title : jsstring;
  description : jsstring;
  details : jsstring;
  cells : list json
}.

(** What [transformImage] composites over the image. The drawing itself
    belongs to the image library; a layer records what it was asked to
    draw. *)
Inductive layer :=
| GridLayer (config : GridConfig) (width height : N)
| HighlightLayer (regions : list Region) (config : GridConfig)
                 (width height : N) (annotations : list AnnotationType).

(** A buffer is either bytes supplied from outside or the PNG that
    [transformImage] made of an image and the layers over it. *)
Inductive Buffer :=
| Bytes (id : N)
| Png (source : jsstring + Buffer) (composites : list layer).

Record ImageTransformOptions := {
  image : jsstring + Buffer;               (* a file path or a buffer *)
  addGrid : bool;                          (* absent = false *)
  regions : list Region;                   (* absent = [] *)
  gridConfig : GridConfig;
  annotations : list AnnotationType        (* absent = [] *)
}.

Definition Buffer_isBuffer (i : jsstring + Buffer) : bool :=
  match i with inl _ => false | inr _ => true end.

Definition isString (v : json) : bool :=
  match v with JStr _ => true | _ => false end.

(** [generateHighlightOverlay] reads every cell of every region with
    [cell.charCodeAt(0)] and [cell.slice(1)]: a cell that is not a string
    is a TypeError. *)
Definition drawable (rs : list Region) : bool :=
  forallb (fun r => forallb isString (cells r)) rs.

(** [transformImage]. [metadata] is the image library's reading of the
    dimensions, 0 for a missing one; compositing and PNG encoding are taken
    to succeed. *)
Definition transformImage
    (metadata : jsstring + Buffer -> result (N * N))
    (options : ImageTransformOptions) : result Buffer :=
  match metadata (image options) with
  | Throw e => Throw e
  | Ok (width, height) =>
      if (width =? 0) || (height =? 0) then Throw DimensionsError
      else
        let grid :=
          if addGrid options && negb (Buffer_isBuffer (image options))
          then [GridLayer (gridConfig options) width height]
          else [] in
        match regions options with
        | [] => Ok (Png (image options) grid)
        | rs =>
            if drawable rs
            then Ok (Png (image options)
                         (grid ++ [HighlightLayer rs (gridConfig options)
                                     width height (annotations options)]))
            else Throw TypeError
        end
  end.

End Processor.

(* ================================================================== *)
(** * Backend types and the price table ([llm/types.ts]) *)
(* ================================================================== *)

Module Types.
Import Processor.

Record Usage := { input_tokens : N; output_tokens : N }.

(** The text of a response, by what [JSON.parse] makes of it. *)
Inductive Text :=
| Malformed (raw : jsstring)     (* [JSON.parse] throws a SyntaxError *)
| Encoded (v : json).            (* [JSON.parse] returns [v] *)

(** What [analyzePair] resolves to. The analyzer tests [response.text] for
    being a string, so the text may be missing. *)
Record InitialResponse := {
  text : option Text;
  usage : option Usage
}.

(** What [analyze] resolves to: the analyzer accepts a bare string as well
    as an [LLMResponse]. *)
Inductive LLMResponse :=
| Bare (t : Text)
| Full (text : option Text) (usage : option Usage).

(** The verification prompt: [VERIFICATION_PROMPT_TEMPLATE(contiguous)]
    with [{prompt}] and [{cells}] filled in, kept as its three parameters. *)
Record VerificationPrompt := {
  contiguousMode : bool;
  requested : jsstring;
  identified : list json
}.

Inductive ClientClass := AnthropicClient | OpenAIClient | OtherClient.

Inductive Provider := anthropic | openai | unsupported.

Section Numbers.
Context {num : Type} `{Number num}.

(** A client: its class (for [instanceof]), its model, and the backend
    behind its two calls. [analyzePair] is given the index of the pass, as
    a backend need not answer equal requests equally; it resolves to no
    response at all ([None]), to a response, or rejects. *)
Record LLMClient := {
  class : ClientClass;
  getModel : jsstring;
  analyzePair : nat -> Buffer -> Buffer -> option jsstring -> num ->
                result (option InitialResponse);
  analyze : Buffer -> VerificationPrompt -> result LLMResponse
}.

Record Pricing := { input : num; output : num }.

(** [MODEL_PRICING], dollars per million tokens. *)
Definition MODEL_PRICING : list (jsstring * Pricing) := [
  (js "gpt-4.1", {| input := lit 2 1; output := lit 8 1 |});
  (js "gpt-4.1-mini", {| input := lit 4 10; output := lit 16 10 |});
  (js "claude-3-7-sonnet-latest", {| input := lit 3 1; output := lit 15 1 |})
].

(** [MODEL_PRICING[model]], on the table's own keys (a model is not named
    after a method of [Object.prototype]). *)
Fixpoint lookup (table : list (jsstring * Pricing)) (model : jsstring)
  : option Pricing :=
  match table with
  | [] => None
  | (k, p) :: rest => if str_eqb model k then Some p else lookup rest model
  end.

Record LLMConfig := {
  provider : Provider;
  model : option jsstring;
  numPasses : option N;
  client : option LLMClient
}.

End Numbers.
Arguments LLMClient num : clear implicits.
Arguments Pricing num : clear implicits.
Arguments LLMConfig num : clear implicits.

End Types.

(* ================================================================== *)
(** * The analyzer ([llm/analyzer.ts]) *)
(* ================================================================== *)

Module Analyzer.
Import Processor Types Votes.

Record Tokens := { input : N; output : N }.

Section Numbers.
Context {num : Type} `{Number num}.

(** ** The object and its environment *)

Record ImageAnalyzer := {
  client : LLMClient num;
  numPasses : N;
  gridConfig : GridConfig
}.

(** The network behind the two client classes of the repository, and the
    rest of the environment of one invocation. *)
Record Env := {
  network_analyzePair : ClientClass -> jsstring -> nat -> Buffer -> Buffer ->
                        option jsstring -> num -> result (option InitialResponse);
  network_analyze : ClientClass -> jsstring -> Buffer -> VerificationPrompt ->
                    result LLMResponse;
  metadata : jsstring + Buffer -> result (N * N);
  NODE_ENV_is_test : bool;
  writeFile : jsstring -> Buffer -> result unit
}.

Inductive Call :=
| PairCall (index : nat) (originalImage gridImage : Buffer)
           (prompt : option jsstring) (temperature : num)
| AnalyzeCall (imageBuffer : Buffer) (prompt : VerificationPrompt).

(** The mutable part: [this.totalTokens], and the log of backend calls. *)
Record State := {
  totalTokens : Tokens;
  calls : list Call
}.

Definition M (A : Type) : Type := State -> result A * State.

Definition ret {A} (a : A) : M A := fun s => (Ok a, s).

Definition throw {A} (e : error) : M A := fun s => (Throw e, s).

Definition bind {A B} (c : M A) (k : A -> M B) : M B :=
  fun s =>
    match c s with
    | (Ok a, s') => k a s'
    | (Throw e, s') => (Throw e, s')
    end.

Definition lift {A} (r : result A) : M A := fun s => (r, s).

Definition record (c : Call) : M unit :=
  fun s => (Ok tt, {| totalTokens := totalTokens s; calls := calls s ++ [c] |}).

(** [this.totalTokens.input += usage.input_tokens || 0], and the same for
    the output, when the response has a [usage]. *)
Definition addUsage (u : option Usage) : M unit :=
  fun s =>
    match u with
    | None => (Ok tt, s)
    | Some u =>
        (Ok tt, {| totalTokens :=
                     {| input := input (totalTokens s) + input_tokens u;
                        output := output (totalTokens s) + output_tokens u |};
                   calls := calls s |})
    end.

Definition resetTokens : M unit :=
  fun s => (Ok tt, {| totalTokens := {| input := 0; output := 0 |};
                      calls := calls s |}).

Definition getTokens : M Tokens := fun s => (Ok (totalTokens s), s).

(** [Promise.all] over callbacks that each run up to their backend call at
    once, in index order: every pass is started and runs to its end; the
    whole rejects when one of them does. *)
Fixpoint Promise_all {A} (ps : list (M A)) : M (list A) :=
  fun s =>
    match ps with
    | [] => (Ok [], s)
    | p :: ps' =>
        let (r, s1) := p s in
        let (rs, s2) := Promise_all ps' s1 in
        (match r, rs with
         | Ok a, Ok l => Ok (a :: l)
         | Throw e, _ => Throw e
         | Ok _, Throw e => Throw e
         end, s2)
    end.

(** ** Construction *)

Definition createClient (env : Env) (config : LLMConfig num)
  : result (LLMClient num) :=
  match Types.client config with
  | Some c => Ok c
  | None =>
      let defaultModel :=
        match provider config with
        | openai => js "gpt-4o"
        | _ => js "claude-3-5-sonnet-latest"
        end in
      let model :=
        match Types.model config with
        | Some m => if str_eqb m [] then defaultModel else m
        | None => defaultModel
        end in
      let make cls :=
        {| class := cls;
           getModel := model;
           analyzePair := network_analyzePair env cls model;
           analyze := network_analyze env cls model |} in
      match provider config with
      | anthropic => Ok (make AnthropicClient)
      | openai => Ok (make OpenAIClient)
      | unsupported => Throw UnsupportedProvider
      end
  end.

(** [new ImageAnalyzer(config, gridConfig)];
    [this.numPasses = config.numPasses || 4]. *)
Definition new_ImageAnalyzer (env : Env) (config : LLMConfig num)
    (grid : GridConfig) : result ImageAnalyzer :=
  match createClient env config with
  | Throw e => Throw e
  | Ok c =>
      Ok {| client := c;
            numPasses := match Types.numPasses config with
                         | Some 0 | None => 4
                         | Some n => n
                         end;
            gridConfig := grid |}
  end.

(** ** Cost *)

Definition priced (p : Pricing num) (tokens : Tokens) : num :=
  add (div (mul (ofN (input tokens)) (Types.input p)) (lit 1000000 1))
      (div (mul (ofN (output tokens)) (Types.output p)) (lit 1000000 1)).

Definition calculateCost (a : ImageAnalyzer) (tokens : Tokens) : num :=
  match class (client a) with
  | OpenAIClient =>
      match lookup MODEL_PRICING (getModel (client a)) with
      | None => lit 0 1
      | Some pricing => priced pricing tokens
      end
  | AnthropicClient =>
      match lookup MODEL_PRICING (getModel (client a)) with
      | None => lit 0 1
      | Some pricing => priced pricing tokens
      end
  | OtherClient => lit 0 1
  end.

Definition modelName (a : ImageAnalyzer) : jsstring :=
  match class (client a) with
  | OpenAIClient => getModel (client a)
  | AnthropicClient => getModel (client a)
  | OtherClient => js "unknown"
  end.

(** ** The consensus passes *)

Definition low (cls : ClientClass) : num :=
  match cls with
  | AnthropicClient => lit 2 10      (* Anthropic: 0.2 to 0.8 *)
  | _ => lit 4 10                    (* OpenAI: 0.4 to 1.0 *)
  end.

(** [Array(numPasses).fill(0).map((_, i) =>
      low + (i * 0.6) / (numPasses - 1))]. *)
Definition temperatures (a : ImageAnalyzer) : list num :=
  map (fun i => add (low (class (client a)))
                    (div (mul (ofN (N.of_nat i)) (lit 6 10))
                         (ofZ (Z.of_N (numPasses a) - 1))))
      (seq 0 (N.to_nat (numPasses a))).

Definition liberal : jsstring :=
  js " Be liberal in your assessment - include any cell that appears to contain the requested feature, even if you're not completely certain.".

Definition conservative : jsstring :=
  js " Be extremely conservative in your assessment - only include cells where you are certain the requested feature is present.".

(** [prompt || ""]. *)
Definition orEmpty (prompt : option jsstring) : jsstring :=
  match prompt with Some p => p | None => [] end.

Definition adjustedPrompt (a : ImageAnalyzer) (prompt : option jsstring)
    (index : nat) : option jsstring :=
  if (index =? 0)%nat then Some (orEmpty prompt ++ liberal)
  else if (Z.of_nat index =? Z.of_N (numPasses a) - 1)%Z
       then Some (orEmpty prompt ++ conservative)
       else prompt.

(** [parsed.cells || []], inside the [try]. Reading a property of [null]
    throws; only an object has a [cells] of its own. *)
Definition cellsOf (parsed : json) : result json :=
  match parsed with
  | JNull => Throw TypeError
  | JObj fields =>
      match field (js "cells") fields with
      | Some v => Ok (if truthy v then v else JArr [])
      | None => Ok (JArr [])
      end
  | _ => Ok (JArr [])
  end.

(** What one pass returns for the text of its response:
    [try { ... } catch { return [] }]. *)
Definition parseCells (t : Text) : json :=
  match t with
  | Malformed _ => JArr []
  | Encoded parsed =>
      match cellsOf parsed with
      | Ok v => v
      | Throw _ => JArr []
      end
  end.

Definition pass (a : ImageAnalyzer) (imageBuffer : Buffer)
    (prompt : option jsstring) (index : nat) (temp : num) : M json :=
  let adjusted := adjustedPrompt a prompt index in
  bind (record (PairCall index imageBuffer imageBuffer adjusted temp)) (fun _ =>
  bind (lift (analyzePair (client a) index imageBuffer imageBuffer adjusted temp))
       (fun response =>
  match response with
  | None => ret (JArr [])
  | Some response =>
      match text response with
      | None => ret (JArr [])
      | Some t =>
          bind (addUsage (usage response)) (fun _ => ret (parseCells t))
      end
  end)).

Fixpoint indexed {A} (i : nat) (l : list A) : list (nat * A) :=
  match l with
  | [] => []
  | x :: l' => (i, x) :: indexed (S i) l'
  end.

Definition performInitialAnalysis (a : ImageAnalyzer) (imageBuffer : Buffer)
    (prompt : option jsstring) : M (list json) :=
  bind (Promise_all (map (fun '(index, temp) => pass a imageBuffer prompt index temp)
                         (indexed 0 (temperatures a))))
       (fun results => lift (allCells results)).

(** ** The verification pass *)

Definition parseAnalysis (t : Text) : result json :=
  match t with
  | Malformed _ => Throw ParseFailure
  | Encoded v => Ok v
  end.

Definition performAnalysis (a : ImageAnalyzer) (imageBuffer : Buffer)
    (prompt : VerificationPrompt) : M json :=
  bind (record (AnalyzeCall imageBuffer prompt)) (fun _ =>
  bind (lift (analyze (client a) imageBuffer prompt)) (fun response =>
  match response with
  | Bare t => lift (parseAnalysis t)
  | Full text usage =>
      bind (addUsage usage) (fun _ =>
      lift (parseAnalysis (match text with
                           | Some t => t
                           | None => Malformed []
                           end)))
  end)).

(** ** [analyze] *)

Record TokenReport := {
  report_input : N;
  report_output : N;
  total : N;
  cost : num;
  report_modelName : jsstring
}.

(** [{ ...verifiedAnalysis, tokens }]. *)
Record AnalysisResponse := {
  verified : list (jsstring * json);
  tokens : TokenReport
}.

(** The log lines after verification call [regions.forEach] and, for every
    region, [region.cells.join]: the verified analysis has to be an object
    whose [regions] is an array of objects whose [cells] is an array, or a
    TypeError is thrown. (Printing a value is taken not to throw.) *)
Definition regionPrints (region : json) : bool :=
  match region with
  | JObj fields =>
      match field (js "cells") fields with
      | Some (JArr _) => true
      | _ => false
      end
  | _ => false
  end.

Definition logged (verifiedAnalysis : json) : result (list (jsstring * json)) :=
  match verifiedAnalysis with
  | JObj fields =>
      match field (js "regions") fields with
      | Some (JArr regions) =>
          if forallb regionPrints regions then Ok fields else Throw TypeError
      | _ => Throw TypeError
      end
  | _ => Throw TypeError
  end.

Record Options := { contiguousRegions : option bool }.

(** The body of [analyze] up to the comparison logs: reset, grid overlay,
    consensus, highlight, verification. *)
Definition verify (env : Env) (a : ImageAnalyzer) (imageBuffer : Buffer)
    (prompt : option jsstring) (imagePath : option jsstring)
    (options : Options) : M (list (jsstring * json)) :=
  bind resetTokens (fun _ =>
  bind (lift (transformImage (metadata env)
                {| image := inr imageBuffer;
                   addGrid := true;
                   regions := [];
                   Processor.gridConfig := gridConfig a;
                   annotations := [] |})) (fun gridImage =>
  bind (performInitialAnalysis a gridImage prompt) (fun initialCells =>
  bind (lift (transformImage (metadata env)
                {| image := inr imageBuffer;
                   addGrid := true;
                   regions := [{| title := [];
                                  description := js "Initial pass";
                                  details := js "Pending verification";
                                  cells := initialCells |}];
                   Processor.gridConfig := gridConfig a;
                   annotations := [highlight] |})) (fun highlightedImage =>
  bind (match imagePath with
        | Some path =>
            if negb (str_eqb path []) && negb (NODE_ENV_is_test env)
            then lift (writeFile env path highlightedImage)
            else ret tt
        | None => ret tt
        end) (fun _ =>
  let verificationPrompt :=
    {| contiguousMode := match contiguousRegions options with
                         | Some b => b
                         | None => false
                         end;
       requested := orEmpty prompt;
       identified := initialCells |} in
  bind (performAnalysis a highlightedImage verificationPrompt)
       (fun verifiedAnalysis => lift (logged verifiedAnalysis))))))).

(** [analyze]: the cost of the tokens spent, and the result. *)
Definition analyze (env : Env) (a : ImageAnalyzer) (imageBuffer : Buffer)
    (prompt : option jsstring) (imagePath : option jsstring)
    (options : Options) : M AnalysisResponse :=
  bind (verify env a imageBuffer prompt imagePath options) (fun fields =>
  bind getTokens (fun t =>
  ret {| verified := fields;
         tokens := {| report_input := input t;
                      report_output := output t;
                      total := input t + output t;
                      cost := calculateCost a t;
                      report_modelName := modelName a |} |})).

End Numbers.
Arguments ImageAnalyzer num : clear implicits.
Arguments Env num : clear implicits.
Arguments Call num : clear implicits.
Arguments State num : clear implicits.
Arguments AnalysisResponse num : clear implicits.
Arguments TokenReport num : clear implicits.

End Analyzer.

(* ================================================================== *)
(** * Vocabulary of the properties *)
(* ================================================================== *)

Module Spec.

(** What a pass returns whose response is [{ "cells": p }], [p] an array
    of strings. *)
Definition cellArray (p : list jsstring) : json := JArr (map JStr p).

(** Occurrences of a cell in all the results together. *)
Definition occurrences (c : jsstring) (results : list (list jsstring)) : nat :=
  count_occ jsstring_dec (List.concat results) c.

(** Number of passes that name a cell at least once. *)
Definition namedBy (c : jsstring) (results : list (list jsstring)) : nat :=
  List.length (filter (fun p => existsb (str_eqb c) p) results).

(** ** Vocabulary of the vote count *)

Import Votes.

(** [isCell k x]: the key [x] is the string [k]. *)
Definition isCell (k : jsstring) (x : json) : bool := sameValueZero x (JStr k).

(** Votes for [k] in a list of keys, and the counts a map holds for it. *)
Definition votes (k : jsstring) (l : list json) : nat :=
  List.length (filter (isCell k) l).

Definition entries (k : jsstring) (m : Map) : list nat :=
  map snd (filter (fun e => isCell k (fst e)) m).

(** The counts after the cells [l]: one entry per cell that occurs, holding
    the number of its occurrences. *)
Definition tallied (m : Map) (l : list json) : Prop :=
  forall k, entries k m = if (votes k l =? 0)%nat then [] else [votes k l].

Definition weight (n : nat) : nat := if (2 <=? n)%nat then n else 0%nat.

(** Reading one more decimal digit. *)
Definition step (a d : N) : N := 10 * a + (d - 48).







(** ** Vocabulary of the pipeline properties *)

Import Processor Types Analyzer.

(** The two temperature ranges. *)
Definition rangeLow (cls : ClientClass) : Q :=
  match cls with AnthropicClient => 2 # 10 | _ => 4 # 10 end.

Definition rangeHigh (cls : ClientClass) : Q :=
  match cls with AnthropicClient => 8 # 10 | _ => 1 end.

Definition sumN (l : list N) : N := fold_right N.add 0 l.

(** The [cells] property of a decoded response, if it has one. *)
Definition cellsProperty (v : json) : option json :=
  match v with
  | JObj fields => field (js "cells") fields
  | _ => None
  end.

(** A decoded response that names no cell: no [cells] property, a falsy
    one, or an empty array. *)
Definition namesNoCell (v : json) : Prop :=
  match cellsProperty v with
  | None => True
  | Some c => truthy c = false \/ c = JArr []
  end.

(** A resolved pass that has nothing to offer: no response, a text that is
    not a string, a text that does not decode, or one that names no cell. *)
Inductive offersNothing : result (option InitialResponse) -> Prop :=
| no_response : offersNothing (Ok None)
| no_text u : offersNothing (Ok (Some {| text := None; usage := u |}))
| unparseable raw u :
    offersNothing (Ok (Some {| text := Some (Malformed raw); usage := u |}))
| no_cells v u :
    namesNoCell v ->
    offersNothing (Ok (Some {| text := Some (Encoded v); usage := u |})).


Definition isGridLayer (l : layer) : bool :=
  match l with GridLayer _ _ _ => true | HighlightLayer _ _ _ _ _ => false end.

Section Numbers.
Context {num : Type} `{Number num}.

Definition usagePair (u : option Usage) : N * N :=
  match u with
  | Some u => (input_tokens u, output_tokens u)
  | None => (0, 0)
  end.

(** The usage the backend reports for a call. *)
Definition reportedUsage (c : LLMClient num) (call : Call num) : N * N :=
  match call with
  | PairCall i o g p t =>
      match analyzePair c i o g p t with
      | Ok (Some r) => usagePair (usage r)
      | _ => (0, 0)
      end
  | AnalyzeCall img p =>
      match Types.analyze c img p with
      | Ok (Full _ u) => usagePair u
      | _ => (0, 0)
      end
  end.

(** A client that keeps to [InitialResponse]: the text of every response
    is a string. *)
Definition conforming (c : LLMClient num) : Prop :=
  forall i o g p t r, analyzePair c i o g p t = Ok (Some r) -> text r <> None.

Definition isPairCall (c : Call num) : Prop :=
  match c with PairCall _ _ _ _ _ => True | AnalyzeCall _ _ => False end.

Definition isAnalyzeCall (c : Call num) : Prop :=
  match c with PairCall _ _ _ _ _ => False | AnalyzeCall _ _ => True end.


End Numbers.

(** ** Sample invocations *)

Definition rust : json :=
  JObj [(js "regions",
         JArr [JObj [(js "title", JStr (js "Rust"));
                     (js "cells", JArr [JStr (js "B2")])]]);
        (js "summary", JStr (js "found rust"))].

(** A backend whose passes all answer [answer] and report 100 input and 10
    output tokens each, and whose verification answers [verdict] for 200
    and 20. *)
Definition sampleClient {num} (cls : ClientClass) (model : jsstring)
    (answer verdict : Text) : LLMClient num :=
  {| class := cls;
     getModel := model;
     analyzePair := fun _ _ _ _ _ =>
       Ok (Some {| text := Some answer;
                   usage := Some {| input_tokens := 100; output_tokens := 10 |} |});
     Types.analyze := fun _ _ =>
       Ok (Full (Some verdict)
                (Some {| input_tokens := 200; output_tokens := 20 |})) |}.

Definition sampleAnalyzer {num} (cls : ClientClass) (model : jsstring)
    (answer verdict : Text) (passes : N) : ImageAnalyzer num :=
  {| Analyzer.client := sampleClient cls model answer verdict;
     Analyzer.numPasses := passes;
     Analyzer.gridConfig := {| rows := 5; cols := 5 |} |}.

Definition B2 : Text := Encoded (JObj [(js "cells", JArr [JStr (js "B2")])]).

Definition sampleEnv {num} : Env num :=
  {| network_analyzePair := fun _ _ _ _ _ _ _ => Throw (BackendError 0);
     network_analyze := fun _ _ _ _ => Throw (BackendError 0);
     metadata := fun _ => Ok (500, 500);
     NODE_ENV_is_test := true;
     writeFile := fun _ _ => Ok tt |}.

(** A state left behind by an earlier invocation. *)
Definition usedState {num} : State num :=
  {| totalTokens := {| Analyzer.input := 7777; Analyzer.output := 333 |};
     calls := [] |}.

End Spec.

(* ================================================================== *)
(** * Vocabulary of the runs of the analyzer *)
(* ================================================================== *)

Module Runs.
Import Processor Types Votes Analyzer Spec.

Section Passes.
Context {num : Type} `{Number num}.

(** What a pass adds to the ledger: the usage of a response whose text is
    a string. *)
Definition counted (resp : result (option InitialResponse)) : N * N :=
  match resp with
  | Ok (Some r) =>
      match text r with
      | Some _ => usagePair (usage r)
      | None => (0, 0)
      end
  | _ => (0, 0)
  end.

Definition plus (t : Tokens) (u : N * N) : Tokens :=
  {| Analyzer.input := Analyzer.input t + fst u;
     Analyzer.output := Analyzer.output t + snd u |}.

(** What a pass returns for the response it gets. *)
Definition returned (resp : result (option InitialResponse)) : result json :=
  match resp with
  | Throw e => Throw e
  | Ok None => Ok (JArr [])
  | Ok (Some r) =>
      match text r with
      | None => Ok (JArr [])
      | Some t => Ok (parseCells t)
      end
  end.

(** The outcome of several promises: the results, or the first error. *)
Fixpoint collect {A} (rs : list (result A)) : result (list A) :=
  match rs with
  | [] => Ok []
  | r :: rs' =>
      match r, collect rs' with
      | Ok x, Ok l => Ok (x :: l)
      | Throw e, _ => Throw e
      | Ok _, Throw e => Throw e
      end
  end.

Definition total2 (us : list (N * N)) : N * N :=
  (sumN (map fst us), sumN (map snd us)).

(** What the verification pass returns for the reply it gets. *)
Definition replied (resp : result LLMResponse) : result json :=
  match resp with
  | Throw e => Throw e
  | Ok (Bare t) => parseAnalysis t
  | Ok (Full text _) =>
      parseAnalysis (match text with Some t => t | None => Malformed [] end)
  end.

Definition verified_outcome (v : result json) : result (list (jsstring * json)) :=
  match v with
  | Ok v => logged v
  | Throw e => Throw e
  end.

Variable a : ImageAnalyzer num.
Variable imageBuffer : Buffer.
Variable prompt : option jsstring.

(** The passes of an invocation: index and temperature. *)
Definition schedule : list (nat * num) := indexed 0 (temperatures a).

(** The response to the pass [it], and the call that asks for it. *)
Definition request (it : nat * num) : result (option InitialResponse) :=
  analyzePair (client a) (fst it) imageBuffer imageBuffer
              (adjustedPrompt a prompt (fst it)) (snd it).

Definition callOf (it : nat * num) : Call num :=
  PairCall (fst it) imageBuffer imageBuffer
           (adjustedPrompt a prompt (fst it)) (snd it).

End Passes.

(** The stages of [verify]. *)
Section Stages.
Context {num : Type} `{Number num}.
Variable env : Env num.
Variable a : ImageAnalyzer num.
Variable imageBuffer : Buffer.
Variable prompt : option jsstring.
Variable imagePath : option jsstring.
Variable options : Options.

Definition gridOptions : ImageTransformOptions :=
  {| image := inr imageBuffer;
     addGrid := true;
     regions := [];
     Processor.gridConfig := Analyzer.gridConfig a;
     annotations := [] |}.

Definition highlightOptions (initialCells : list json) : ImageTransformOptions :=
  {| image := inr imageBuffer;
     addGrid := true;
     regions := [{| title := [];
                    description := js "Initial pass";
                    details := js "Pending verification";
                    cells := initialCells |}];
     Processor.gridConfig := Analyzer.gridConfig a;
     annotations := [highlight] |}.

Definition promptFor (initialCells : list json) : VerificationPrompt :=
  {| contiguousMode := match contiguousRegions options with
                       | Some b => b
                       | None => false
                       end;
     requested := orEmpty prompt;
     identified := initialCells |}.

Definition saved (highlightedImage : Buffer) : result unit :=
  match imagePath with
  | Some path =>
      if negb (str_eqb path []) && negb (NODE_ENV_is_test env)
      then writeFile env path highlightedImage
      else Ok tt
  | None => Ok tt
  end.

Definition consensus (gridImage : Buffer) : result (list json) :=
  match collect (map (fun it => returned (request a gridImage prompt it))
                     (schedule a)) with
  | Ok results => allCells results
  | Throw e => Throw e
  end.

Definition afterPasses (gridImage : Buffer) (s : State num) : State num :=
  {| totalTokens :=
       plus {| Analyzer.input := 0; Analyzer.output := 0 |}
            (total2 (map (fun it => counted (request a gridImage prompt it))
                         (schedule a)));
     calls := calls s ++ map (callOf a gridImage prompt) (schedule a) |}.

Definition afterVerification (gridImage highlightedImage : Buffer)
    (initialCells : list json) (s : State num) : State num :=
  {| totalTokens :=
       plus (totalTokens (afterPasses gridImage s))
            (reportedUsage (client a)
               (AnalyzeCall highlightedImage (promptFor initialCells)));
     calls := calls (afterPasses gridImage s)
              ++ [AnalyzeCall highlightedImage (promptFor initialCells)] |}.

End Stages.

End Runs.

(* ================================================================== *)
(** * Reading a label back ([image/highlighter.ts]) *)
(* ================================================================== *)

Module Highlighter.

(** [StrWhiteSpaceChar]: the white space and the line terminators that
    [parseInt] skips. *)
Definition isWhiteSpace (c : codeUnit) : bool :=
  existsb (N.eqb c)
    [9; 10; 11; 12; 13; 32; 160; 5760; 8192; 8193; 8194; 8195; 8196; 8197;
     8198; 8199; 8200; 8201; 8202; 8232; 8233; 8239; 8287; 12288; 65279].

Fixpoint trimStart (s : jsstring) : jsstring :=
  match s with
  | c :: s' => if isWhiteSpace c then trimStart s' else s
  | [] => []
  end.

(** The value of a digit in a radix of 10 or 16, if it is one. *)
Definition digitValue (radix : N) (c : codeUnit) : option N :=
  if (48 <=? c) && (c <=? 57) then Some (c - 48)
  else if (radix =? 16) && (97 <=? c) && (c <=? 102) then Some (c - 87)
  else if (radix =? 16) && (65 <=? c) && (c <=? 70) then Some (c - 55)
  else None.

(** The longest prefix of digits, read as a number; [None] without one. *)
Fixpoint readDigits (radix : N) (s : jsstring) (acc : option N) : option N :=
  match s with
  | [] => acc
  | c :: s' =>
      match digitValue radix c with
      | Some d =>
          readDigits radix s'
            (Some (radix * match acc with Some v => v | None => 0 end + d))
      | None => acc
      end
  end.

(** [parseInt(string)] without a radix: white space, a sign, [0x] or [0X]
    for radix 16, digits. [None] is NaN. The result is exact, as it is in
    JavaScript below 2^53. *)
Definition parseInt (string : jsstring) : option Z :=
  let s := trimStart string in
  let (negative, s) :=
    match s with
    | 45 :: s' => (true, s')
    | 43 :: s' => (false, s')
    | _ => (false, s)
    end in
  let (radix, s) :=
    match s with
    | 48 :: 120 :: s' => (16, s')
    | 48 :: 88 :: s' => (16, s')
    | _ => (10, s)
    end in
  match readDigits radix s None with
  | Some v => Some (if negative then (- Z.of_N v)%Z else Z.of_N v)
  | None => None
  end.

(** [cell.charCodeAt(0)], NaN for the empty string. *)
Definition charCodeAt0 (cell : jsstring) : option Z :=
  match cell with
  | c :: _ => Some (Z.of_N c)
  | [] => None
  end.

(** [cell.slice(1)]. *)
Definition slice1 (cell : jsstring) : jsstring := tl cell.

(** [[cell.charCodeAt(0) - 65, parseInt(cell.slice(1)) - 1]]: the row and
    the column index of a cell, as [generateHighlightOverlay] and
    [renderAnnotation] read them. *)
Definition cellIndices (cell : jsstring) : option Z * option Z :=
  (option_map (fun code => (code - 65)%Z) (charCodeAt0 cell),
   option_map (fun n => (n - 1)%Z) (parseInt (slice1 cell))).

End Highlighter.

(* ================================================================== *)
(** * Accuracy against a truth file ([ImageAnalyzer.calculateAccuracy]) *)
(* ================================================================== *)

Module Accuracy.

(** [Set<string>], in insertion order. *)
Definition Set_has (s : list jsstring) (x : jsstring) : bool :=
  existsb (str_eqb x) s.

Definition Set_add (s : list jsstring) (x : jsstring) : list jsstring :=
  if Set_has s x then s else s ++ [x].

Definition new_Set (l : list jsstring) : list jsstring :=
  fold_left Set_add l [].

Section Numbers.
Context {num : Type} `{Number num}.

Record AccuracyScore := {
  foundCells : list jsstring;      (* cells we correctly identified *)
  missedCells : list jsstring;     (* cells in truth but not found *)
  extraCells : list jsstring;      (* cells we found but aren't in truth *)
  recall : num;
  precision : num
}.

(** [calculateAccuracy(analysis, truthFile)]. The analysis is given by the
    [cells] of its regions, the truth file by what reading and decoding it
    yields: an error, or the [cells] of a [TruthFile]. *)
Definition calculateAccuracy (analysis : list (list jsstring))
    (truthFile : result (list jsstring)) : result AccuracyScore :=
  match truthFile with
  | Throw e => Throw e
  | Ok truth =>
      let truthCells := new_Set truth in
      let foundCells := new_Set (List.concat analysis) in
      let correctCells := filter (Set_has foundCells) truthCells in
      let missedCells := filter (fun cell => negb (Set_has foundCells cell)) truthCells in
      let extraCells := filter (fun cell => negb (Set_has truthCells cell)) foundCells in
      let precision :=
        if (List.length foundCells =? 0)%nat then lit 0 1
        else div (ofN (N.of_nat (List.length correctCells)))
                 (ofN (N.of_nat (List.length foundCells))) in
      let recall :=
        if (List.length truthCells =? 0)%nat then lit 1 1
        else div (ofN (N.of_nat (List.length correctCells)))
                 (ofN (N.of_nat (List.length truthCells))) in
      Ok {| foundCells := correctCells;
            missedCells := missedCells;
            extraCells := extraCells;
            recall := recall;
            precision := precision |}
  end.

End Numbers.
Arguments AccuracyScore num : clear implicits.

(** [compareAnalyses(initial, verified)], on the [cells] of the regions of
    the two analyses. *)
Fixpoint join (separator : jsstring) (l : list jsstring) : jsstring :=
  match l with
  | [] => []
  | [x] => x
  | x :: l' => x ++ separator ++ join separator l'
  end.

Definition compareAnalyses (initial verified : list (list jsstring))
  : list jsstring :=
  let initialCells := new_Set (List.concat initial) in
  let verifiedCells := new_Set (List.concat verified) in
  let removedCells := filter (fun cell => negb (Set_has verifiedCells cell)) initialCells in
  let addedCells := filter (fun cell => negb (Set_has initialCells cell)) verifiedCells in
  (match removedCells with
   | [] => []
   | _ => [js "Removed cells: " ++ join (js ", ") removedCells]
   end)
  ++ (match addedCells with
      | [] => []
      | _ => [js "Added cells: " ++ join (js ", ") addedCells]
      end)
  ++ (if (List.length initial =? List.length verified)%nat then []
      else [js "Region count changed: "
            ++ Number_toString (Z.of_nat (List.length initial))
            ++ [32; 8594; 32]
            ++ Number_toString (Z.of_nat (List.length verified))]).

End Accuracy.

(* ================================================================== *)
(** * Accuracy over several images ([calculateOverallAccuracy]) *)
(* ================================================================== *)

Module Metrics.
Import Accuracy.

Section Numbers.
Context {num : Type} `{Number num}.

Record AccuracyMetrics := {
  foundCells : list jsstring;
  missedCells : list jsstring;
  extraCells : list jsstring;
  recall : num;
  precision : num
}.

Record ImageCells := { truth : list jsstring; found : list jsstring }.

Definition correctOf (analysis : ImageCells) : list jsstring :=
  filter (Set_has (new_Set (truth analysis))) (found analysis).

Definition missedOf (analysis : ImageCells) : list jsstring :=
  filter (fun cell => negb (Set_has (new_Set (found analysis)) cell))
         (truth analysis).

Definition extraOf (analysis : ImageCells) : list jsstring :=
  filter (fun cell => negb (Set_has (new_Set (truth analysis)) cell))
         (found analysis).

Definition calculateOverallAccuracy (analyses : list ImageCells)
  : AccuracyMetrics :=
  let foundCells := flat_map correctOf analyses in
  let missedCells := flat_map missedOf analyses in
  let extraCells := flat_map extraOf analyses in
  let totalTrueCells :=
    fold_left (fun sum a => (sum + List.length (truth a))%nat) analyses 0%nat in
  let totalFoundCells :=
    fold_left (fun sum a => (sum + List.length (found a))%nat) analyses 0%nat in
  {| foundCells := foundCells;
     missedCells := missedCells;
     extraCells := extraCells;
     recall := if (0 <? totalTrueCells)%nat
               then div (ofN (N.of_nat (List.length foundCells)))
                        (ofN (N.of_nat totalTrueCells))
               else lit 0 1;
     precision := if (0 <? totalFoundCells)%nat
                  then div (ofN (N.of_nat (List.length foundCells)))
                           (ofN (N.of_nat totalFoundCells))
                  else lit 0 1 |}.

End Numbers.
Arguments AccuracyMetrics num : clear implicits.

End Metrics.

(* ================================================================== *)
(** * The verification image of [Throughmark] *)
(* ================================================================== *)

Module Throughmark.
Import Processor.

(** [generateVerificationImage(imagePath)]; [config] is the calculator's
    current grid. *)
Definition generateVerificationImage
    (metadata : jsstring + Buffer -> result (N * N))
    (config : GridConfig) (imagePath : jsstring) : result Buffer :=
  transformImage metadata
    {| image := inl imagePath;
       addGrid := true;
       regions := [];
       gridConfig := {| rows := rows config; cols := cols config |};
       annotations := [highlight] |}.

End Throughmark.

(* ================================================================== *)
(** * Vocabulary of the further properties *)
(* ================================================================== *)

Module MoreSpec.
Import Processor Types Analyzer.

(** Grid layers in a buffer, those of the buffer it was made from
    included. *)
Fixpoint gridLayers (b : Buffer) : nat :=
  match b with
  | Bytes _ => 0%nat
  | Png source composites =>
      (List.length (filter Spec.isGridLayer composites)
       + match source with
         | inl _ => 0%nat
         | inr b' => gridLayers b'
         end)%nat
  end.

(** A region that has an array of [cells]. *)
Definition hasCellsArray (region : json) : Prop :=
  exists fields items,
    region = JObj fields /\ field (js "cells") fields = Some (JArr items).

(** A backend of four passes whose third call is refused. *)
Definition flakyAnalyzer {num} : ImageAnalyzer num :=
  {| Analyzer.client :=
       {| class := OpenAIClient;
          getModel := js "gpt-4.1";
          analyzePair := fun index _ _ _ _ =>
            if (index =? 2)%nat then Throw (BackendError 429)
            else Ok (Some {| text := Some Spec.B2; usage := None |});
          Types.analyze := fun _ _ => Ok (Bare (Encoded Spec.rust)) |};
     Analyzer.numPasses := 4;
     Analyzer.gridConfig := {| rows := 5; cols := 5 |} |}.

End MoreSpec.

(* ================================================================== *)
(** * Facts about the stable sort *)
(* ================================================================== *)

Module SortFacts.
Import Collation.

Section OneOrder.
Context {A : Type} (cmp : A -> A -> comparison).

Lemma insert_perm (x : A) (l : list A) :
  Permutation (insert cmp x l) (x :: l).
Proof.
  induction l as [|y l IH]; simpl; [reflexivity|].
  destruct (cmp x y); try reflexivity.
  etransitivity; [apply perm_skip, IH | apply perm_swap].
Qed.

Lemma sort_perm (l : list A) : Permutation (sort cmp l) l.
Proof.
  induction l as [|x l IH]; simpl; [reflexivity|].
  etransitivity; [apply insert_perm | apply perm_skip, IH].
Qed.

Lemma sort_singleton (x : A) : sort cmp [x] = [x].
Proof. reflexivity. Qed.

Hypothesis cmp_total : forall a b, cmp a b = Gt -> cmp b a <> Gt.



End OneOrder.

Section TwoOrders.
Context {A B : Type} (cmpA : A -> A -> comparison) (cmpB : B -> B -> comparison).
Context (f : A -> B) (valid : A -> Prop).
Hypothesis agree :
  forall a b, valid a -> valid b -> cmpB (f a) (f b) = cmpA a b.



End TwoOrders.

End SortFacts.

(* ================================================================== *)
(** * Facts about the vote count *)
(* ================================================================== *)

Module VoteFacts.
Import Collation Votes SortFacts Spec.

Lemma str_eqb_eq (a b : jsstring) : str_eqb a b = true <-> a = b.
Proof. unfold str_eqb. destruct (jsstring_dec a b); split; congruence. Qed.

Lemma str_eqb_refl (a : jsstring) : str_eqb a a = true.
Proof. now apply str_eqb_eq. Qed.

Lemma isCell_eq (k : jsstring) (x : json) : isCell k x = true <-> x = JStr k.
Proof.
  unfold isCell. destruct x; simpl; split; try congruence.
  - intros E. apply str_eqb_eq in E. congruence.
  - intros E. injection E as ->. apply str_eqb_refl.
Qed.

Lemma sameValueZero_cell (key x : json) (k : jsstring) :
  sameValueZero x key = true -> isCell k x = isCell k key.
Proof.
  unfold isCell. destruct x, key; simpl; try congruence.
  intros E. apply str_eqb_eq in E. now subst.
Qed.

Lemma votes_app k l1 l2 : votes k (l1 ++ l2) = (votes k l1 + votes k l2)%nat.
Proof. unfold votes. now rewrite filter_app, length_app. Qed.

Lemma votes_strings k (ss : list jsstring) :
  votes k (map JStr ss) = count_occ jsstring_dec ss k.
Proof.
  unfold votes. induction ss as [|s ss IH]; simpl; [reflexivity|].
  unfold isCell at 1. simpl. unfold str_eqb.
  destruct (jsstring_dec s k); simpl; [f_equal|]; exact IH.
Qed.

Lemma Map_get_entries (m : Map) (k : jsstring) :
  Map_get m (JStr k) = hd_error (entries k m).
Proof.
  induction m as [|[k' v] m IH]; simpl; [reflexivity|].
  unfold entries. simpl. fold (isCell k k').
  destruct (isCell k k'); simpl; [reflexivity | exact IH].
Qed.

Lemma entries_set (m : Map) (key : json) (v : nat) (k : jsstring) :
  entries k (Map_set m key v) =
  if isCell k key
  then match entries k m with [] => [v] | _ :: rest => v :: rest end
  else entries k m.
Proof.
  induction m as [|[k' v'] m IH]; simpl.
  - unfold entries. simpl. now destruct (isCell k key).
  - destruct (sameValueZero k' key) eqn:E.
    + pose proof (sameValueZero_cell key k' k E) as Hk.
      unfold entries. simpl. rewrite Hk. now destruct (isCell k key).
    + unfold entries in *. simpl. destruct (isCell k k') eqn:Ek; simpl.
      * destruct (isCell k key) eqn:Ekey.
        -- apply isCell_eq in Ek, Ekey. subst.
           simpl in E. now rewrite str_eqb_refl in E.
        -- rewrite IH. reflexivity.
      * exact IH.
Qed.

Lemma tallied_step (m : Map) (l : list json) (cell : json) :
  tallied m l -> tallied (count_step m cell) (l ++ [cell]).
Proof.
  intros Hm k. unfold count_step. rewrite entries_set, votes_app.
  unfold votes at 2 4. simpl.
  destruct (isCell k cell) eqn:Ec; simpl.
  - apply isCell_eq in Ec. subst cell.
    rewrite Map_get_entries, (Hm k).
    destruct (votes k l) as [|n]; simpl; [reflexivity|].
    replace (n + 1)%nat with (S n) by lia. simpl. reflexivity.
  - rewrite Nat.add_0_r. apply Hm.
Qed.

Lemma tallied_fold (l pre : list json) (m : Map) :
  tallied m pre -> tallied (fold_left count_step l m) (pre ++ l).
Proof.
  revert pre m. induction l as [|x l IH]; intros pre m Hm; simpl.
  - now rewrite app_nil_r.
  - replace (pre ++ x :: l) with ((pre ++ [x]) ++ l)
      by now rewrite <- app_assoc.
    apply IH, tallied_step, Hm.
Qed.

Lemma tallied_cellCounts (l : list json) : tallied (cellCounts l) l.
Proof. apply (tallied_fold l [] []). intros k. reflexivity. Qed.

Lemma votes_repeat k x n :
  votes k (repeat x n) = if isCell k x then n else 0%nat.
Proof.
  unfold votes. induction n as [|n IH]; simpl.
  - now destruct (isCell k x).
  - destruct (isCell k x) eqn:E; simpl; now rewrite IH.
Qed.

Lemma repeated_cons (k' : json) (v : nat) (m : Map) :
  repeated ((k', v) :: m) =
  (if (2 <=? v)%nat then repeat k' v else []) ++ repeated m.
Proof. unfold repeated. cbn [filter]. now destruct (2 <=? v)%nat. Qed.

Lemma entries_cons (k : jsstring) (k' : json) (v : nat) (m : Map) :
  entries k ((k', v) :: m) =
  if isCell k k' then v :: entries k m else entries k m.
Proof. unfold entries. cbn [filter fst]. now destruct (isCell k k'). Qed.

Lemma votes_repeated (m : Map) (k : jsstring) :
  votes k (repeated m) = list_sum (map weight (entries k m)).
Proof.
  induction m as [|[k' v] m IH]; [reflexivity|].
  rewrite repeated_cons, entries_cons, votes_app, IH.
  assert (Hw : weight v = if (2 <=? v)%nat then v else 0%nat) by reflexivity.
  destruct (isCell k k') eqn:Ek; cbn [map list_sum]; rewrite ?Hw;
    destruct (2 <=? v)%nat; rewrite ?votes_repeat, ?Ek; reflexivity.
Qed.

Lemma votes_aggregated (l : list json) (k : jsstring) :
  votes k (repeated (cellCounts l)) = weight (votes k l).
Proof.
  rewrite votes_repeated, (tallied_cellCounts l k).
  destruct (votes k l) as [|n]; simpl; [reflexivity | lia].
Qed.

(** Keys are never invented. *)
Lemma Map_set_keys (m : Map) (key : json) (v : nat) (x : json) :
  In x (map fst (Map_set m key v)) -> x = key \/ In x (map fst m).
Proof.
  induction m as [|[k' v'] m IH]; simpl.
  - intros [<-|[]]. now left.
  - destruct (sameValueZero k' key); simpl.
    + intros [<-|H]; right; [now left | now right].
    + intros [<-|H]; [right; now left|].
      destruct (IH H) as [->|H']; [now left | right; now right].
Qed.

Lemma fold_keys (l : list json) (m : Map) (x : json) :
  In x (map fst (fold_left count_step l m)) -> In x (map fst m) \/ In x l.
Proof.
  revert m. induction l as [|c l IH]; intros m; simpl; [now left|].
  intros H. destruct (IH _ H) as [H'|H']; [|right; now right].
  unfold count_step in H'. apply Map_set_keys in H'.
  destruct H' as [->|H']; [right; now left | now left].
Qed.

Lemma repeated_keys (m : Map) (x : json) :
  In x (repeated m) -> In x (map fst m).
Proof.
  unfold repeated. intros H. apply in_flat_map in H.
  destruct H as [[k v] [Hin Hx]]. apply filter_In in Hin.
  apply repeat_spec in Hx. subst. apply in_map_iff.
  exists (k, v). now split.
Qed.

Lemma aggregated_from_input (l : list json) (x : json) :
  In x (repeated (cellCounts l)) -> In x l.
Proof.
  intros H. apply repeated_keys in H. unfold cellCounts in H.
  apply fold_keys in H. destruct H as [[]|H]. exact H.
Qed.

Lemma strings_map (ss : list jsstring) : strings (map JStr ss) = Some ss.
Proof. induction ss as [|s ss IH]; simpl; [reflexivity | now rewrite IH]. Qed.

Lemma all_strings (l : list json) :
  (forall x, In x l -> exists s, x = JStr s) -> exists ss, l = map JStr ss.
Proof.
  induction l as [|x l IH]; intros H.
  - now exists [].
  - destruct (H x (or_introl eq_refl)) as [s ->].
    destruct IH as [ss ->]; [intros y Hy; apply H; now right|].
    now exists (s :: ss).
Qed.

Lemma sortCells_strings (ss : list jsstring) :
  sortCells (map JStr ss) = Ok (map JStr (sort localeCompare ss)).
Proof.
  destruct ss as [|a [|b ss]]; try reflexivity.
  unfold sortCells.
  change (map JStr (a :: b :: ss)) with (JStr a :: JStr b :: map JStr ss).
  cbv beta iota.
  change (JStr a :: JStr b :: map JStr ss) with (map JStr (a :: b :: ss)).
  now rewrite strings_map.
Qed.

Lemma flat_cellArrays (results : list (list jsstring)) :
  flat (map cellArray results) = map JStr (List.concat results).
Proof.
  unfold flat. induction results as [|p ps IH]; simpl; [reflexivity|].
  now rewrite IH, map_app.
Qed.

(** The aggregate of passes that all answer with arrays of strings. *)
Lemma allCells_strings (results : list (list jsstring)) :
  exists pre,
    repeated (cellCounts (flat (map cellArray results))) = map JStr pre /\
    (forall s, In s pre -> In s (List.concat results)) /\
    allCells (map cellArray results) = Ok (map JStr (sort localeCompare pre)).
Proof.
  destruct (all_strings (repeated (cellCounts (flat (map cellArray results)))))
    as [pre Hpre].
  - intros x Hx. apply aggregated_from_input in Hx.
    rewrite flat_cellArrays in Hx. apply in_map_iff in Hx.
    destruct Hx as [s [<- _]]. now exists s.
  - exists pre. split; [exact Hpre|]. split.
    + intros s Hs.
      assert (In (JStr s) (map JStr pre)) as H by now apply in_map.
      rewrite <- Hpre in H. apply aggregated_from_input in H.
      rewrite flat_cellArrays in H. apply in_map_iff in H.
      destruct H as [s' [E H]]. now injection E as <-.
    + unfold allCells. rewrite Hpre. apply sortCells_strings.
Qed.

End VoteFacts.

(* ================================================================== *)
(** * Facts about labels and their collation *)
(* ================================================================== *)

Module LabelFacts.
Import Collation Spec SortFacts.

Lemma digitsFrom_acc (fuel : nat) (n : N) (acc : jsstring) :
  digitsFrom fuel n acc = digitsFrom fuel n [] ++ acc.
Proof.
  revert n acc. induction fuel as [|fuel IH]; intros n acc; cbn [digitsFrom].
  - reflexivity.
  - destruct (n <? 10); [reflexivity|].
    rewrite (IH (n / 10) ((48 + n mod 10) :: acc)).
    rewrite (IH (n / 10) [48 + n mod 10]).
    now rewrite <- app_assoc.
Qed.

Lemma digit_isDigit (n : N) : isDigit (48 + n mod 10) = true.
Proof.
  unfold isDigit.
  assert (n mod 10 < 10) as H by (apply N.mod_upper_bound; lia).
  revert H. generalize (n mod 10). intros d H.
  apply andb_true_iff. split; apply N.leb_le; lia.
Qed.

Lemma digitsFrom_isDigit (fuel : nat) (n : N) (acc : jsstring) :
  forallb isDigit acc = true -> forallb isDigit (digitsFrom fuel n acc) = true.
Proof.
  revert n acc. induction fuel as [|fuel IH]; intros n acc Hacc;
    cbn [digitsFrom].
  - exact Hacc.
  - assert (forallb isDigit ((48 + n mod 10) :: acc) = true) as H.
    { cbn [forallb]. now rewrite digit_isDigit. }
    destruct (n <? 10); [exact H | apply IH, H].
Qed.

Lemma digitsFrom_nonempty (fuel : nat) (n : N) :
  digitsFrom (S fuel) n [] <> [].
Proof.
  cbn [digitsFrom]. destruct (n <? 10); [discriminate|].
  rewrite digitsFrom_acc. now destruct (digitsFrom fuel (n / 10) []).
Qed.

Lemma digitsFrom_value (fuel : nat) (n : N) :
  n < 2 ^ N.of_nat fuel -> fold_left step (digitsFrom fuel n []) 0 = n.
Proof.
  revert n. induction fuel as [|fuel IH]; intros n Hn.
  - simpl in *. lia.
  - cbn [digitsFrom]. destruct (n <? 10) eqn:E.
    + apply N.ltb_lt in E. cbn [fold_left]. unfold step.
      rewrite N.mod_small by exact E. lia.
    + apply N.ltb_ge in E.
      rewrite digitsFrom_acc, fold_left_app, IH.
      * cbn [fold_left]. unfold step.
        pose proof (N.Div0.div_mod n 10) as Hdm.
        revert Hdm. generalize (n / 10), (n mod 10). intros q r Hdm. lia.
      * rewrite Nat2N.inj_succ, N.pow_succ_r' in Hn.
        apply N.Div0.div_lt_upper_bound. lia.
Qed.

Lemma digits_value (n : N) : fold_left step (digits n) 0 = n.
Proof.
  apply digitsFrom_value.
  rewrite Nat2N.inj_succ, N2Nat.id, N.pow_succ_r'.
  pose proof (N.size_gt n). lia.
Qed.













End LabelFacts.

(* ================================================================== *)
(** * Facts about the runs of the analyzer *)
(* ================================================================== *)

Module AnalyzerFacts.
Import Processor Types Votes Analyzer Spec Runs.

Section Numbers.
Context {num : Type} `{Number num}.

Lemma plus_zero (t : Tokens) : plus t (0, 0) = t.
Proof. destruct t. unfold plus. simpl. now rewrite !N.add_0_r. Qed.

Lemma plus_plus (t : Tokens) (u v : N * N) :
  plus (plus t u) v = plus t (fst u + fst v, snd u + snd v).
Proof. unfold plus. simpl. now rewrite !N.add_assoc. Qed.

Variable a : ImageAnalyzer num.
Variable imageBuffer : Buffer.
Variable prompt : option jsstring.

Lemma pass_run (it : nat * num) (s : State num) :
  pass a imageBuffer prompt (fst it) (snd it) s =
  (returned (request a imageBuffer prompt it),
   {| totalTokens := plus (totalTokens s) (counted (request a imageBuffer prompt it));
      calls := calls s ++ [callOf a imageBuffer prompt it] |}).
Proof.
  unfold pass, bind, record, lift, returned, counted, request, callOf.
  destruct (analyzePair _ _ _ _ _ _) as [[r|]|e]; cbn [totalTokens calls].
  - destruct (text r); cbn.
    + unfold addUsage, usagePair. destruct (usage r); cbn.
      * reflexivity.
      * now rewrite plus_zero.
    + now rewrite plus_zero.
  - cbn. now rewrite plus_zero.
  - now rewrite plus_zero.
Qed.

Lemma passes_run (l : list (nat * num)) (s : State num) :
  Promise_all (map (fun '(index, temp) => pass a imageBuffer prompt index temp) l) s =
  (collect (map (fun it => returned (request a imageBuffer prompt it)) l),
   {| totalTokens := plus (totalTokens s) (total2 (map (fun it => counted (request a imageBuffer prompt it)) l));
      calls := calls s ++ map (callOf a imageBuffer prompt) l |}).
Proof.
  revert s. induction l as [|[i t] l IH]; intros s.
  - cbn. rewrite plus_zero, app_nil_r. now destruct s.
  - cbn [map Promise_all].
    pose proof (pass_run (i, t) s) as Hp. cbn [fst snd] in Hp.
    rewrite Hp, IH. cbn [totalTokens calls collect].
    rewrite plus_plus, <- app_assoc. reflexivity.
Qed.

Lemma indexed_length {A} (i : nat) (l : list A) :
  List.length (indexed i l) = List.length l.
Proof. revert i. induction l; intros i; simpl; [reflexivity | now rewrite IHl]. Qed.

Lemma temperatures_length : List.length (temperatures a) = N.to_nat (numPasses a).
Proof. unfold temperatures. now rewrite length_map, length_seq. Qed.

Lemma performInitialAnalysis_run (s : State num) :
  performInitialAnalysis a imageBuffer prompt s =
  (match collect (map (fun it => returned (request a imageBuffer prompt it)) (schedule a)) with
   | Ok results => allCells results
   | Throw e => Throw e
   end,
   {| totalTokens := plus (totalTokens s)
                          (total2 (map (fun it => counted (request a imageBuffer prompt it)) (schedule a)));
      calls := calls s ++ map (callOf a imageBuffer prompt) (schedule a) |}).
Proof.
  unfold performInitialAnalysis, bind. fold (schedule a).
  rewrite passes_run. now destruct (collect _).
Qed.

Lemma performAnalysis_run (img : Buffer) (vp : VerificationPrompt) (s : State num) :
  performAnalysis a img vp s =
  (replied (Types.analyze (client a) img vp),
   {| totalTokens := plus (totalTokens s)
                          (reportedUsage (client a) (AnalyzeCall img vp));
      calls := calls s ++ [AnalyzeCall img vp] |}).
Proof.
  unfold performAnalysis, bind, record, lift, replied, reportedUsage.
  destruct (Types.analyze _ _ _) as [[t|text u]|e]; cbn [totalTokens calls].
  - rewrite plus_zero. now destruct (parseAnalysis t).
  - unfold addUsage, usagePair. destruct u; cbn.
    + now destruct (parseAnalysis _).
    + rewrite plus_zero. now destruct (parseAnalysis _).
  - now rewrite plus_zero.
Qed.

End Numbers.

(** The run of [verify], stage by stage. *)
Section Verify.
Context {num : Type} `{Number num}.
Variable env : Env num.
Variable a : ImageAnalyzer num.
Variable imageBuffer : Buffer.
Variable prompt : option jsstring.
Variable imagePath : option jsstring.
Variable options : Options.

Lemma verify_run (s : State num) :
  verify env a imageBuffer prompt imagePath options s =
  match transformImage (metadata env) (gridOptions a imageBuffer) with
  | Throw e =>
      (Throw e, {| totalTokens := {| Analyzer.input := 0; Analyzer.output := 0 |};
                   calls := calls s |})
  | Ok gridImage =>
      match consensus a prompt gridImage with
      | Throw e => (Throw e, afterPasses a prompt gridImage s)
      | Ok initialCells =>
          match transformImage (metadata env) (highlightOptions a imageBuffer initialCells) with
          | Throw e => (Throw e, afterPasses a prompt gridImage s)
          | Ok highlightedImage =>
              match saved env imagePath highlightedImage with
              | Throw e => (Throw e, afterPasses a prompt gridImage s)
              | Ok _ =>
                  (verified_outcome
                     (replied (Types.analyze (client a) highlightedImage
                                             (promptFor prompt options initialCells))),
                   afterVerification a prompt options gridImage highlightedImage initialCells s)
              end
          end
      end
  end.
Proof.
  unfold verify, bind at 1. unfold resetTokens.
  unfold bind at 1, lift at 1. fold (gridOptions a imageBuffer).
  destruct (transformImage (metadata env) (gridOptions a imageBuffer)) as [gridImage|e];
    [|reflexivity].
  unfold bind at 1. rewrite performInitialAnalysis_run.
  cbn [totalTokens calls]. fold (consensus a prompt gridImage). fold (afterPasses a prompt gridImage s).
  destruct (consensus a prompt gridImage) as [initialCells|e]; [|reflexivity].
  unfold bind at 1, lift at 1. fold (highlightOptions a imageBuffer initialCells).
  destruct (transformImage (metadata env) (highlightOptions a imageBuffer initialCells))
    as [highlightedImage|e]; [|reflexivity].
  fold (promptFor prompt options initialCells).
  assert (forall (k : unit -> M (list (jsstring * json))) s0,
            bind (match imagePath with
                  | Some path =>
                      if negb (str_eqb path []) && negb (NODE_ENV_is_test env)
                      then lift (writeFile env path highlightedImage)
                      else ret tt
                  | None => ret tt
                  end) k s0
            = match saved env imagePath highlightedImage
                    return result (list (jsstring * json)) * State num with
              | Ok u => k u s0
              | Throw e => (Throw e, s0)
              end) as Hsave.
  { intros k s0. unfold saved, bind, lift, ret.
    destruct imagePath as [path|]; [|reflexivity].
    destruct (negb (str_eqb path []) && negb (NODE_ENV_is_test env));
      [|reflexivity].
    now destruct (writeFile env path highlightedImage). }
  rewrite Hsave. destruct (saved env imagePath highlightedImage) as [u|e]; [|reflexivity].
  unfold bind, lift. rewrite performAnalysis_run.
  fold (afterVerification a prompt options gridImage highlightedImage initialCells s).
  unfold verified_outcome.
  now destruct (replied _).
Qed.

Lemma analyze_run (s : State num) :
  Analyzer.analyze env a imageBuffer prompt imagePath options s =
  match verify env a imageBuffer prompt imagePath options s with
  | (Ok fields, s') =>
      (Ok {| verified := fields;
             tokens := {| report_input := Analyzer.input (totalTokens s');
                          report_output := Analyzer.output (totalTokens s');
                          total := Analyzer.input (totalTokens s')
                                   + Analyzer.output (totalTokens s');
                          cost := calculateCost a (totalTokens s');
                          report_modelName := modelName a |} |}, s')
  | (Throw e, s') => (Throw e, s')
  end.
Proof.
  unfold Analyzer.analyze, bind, getTokens, ret.
  now destruct (verify env a imageBuffer prompt imagePath options s) as [[fields|e] s'].
Qed.

End Verify.

End AnalyzerFacts.

(* ================================================================== *)
(** * Properties of the vote aggregation *)
(* ================================================================== *)

Module VoteProperties.
Import Collation Votes Spec SortFacts VoteFacts.

(** C1 (as amended). The aggregate counts occurrences, not passes: for all
    pass results, a cell that occurs [n] times in the results taken
    together (repeats inside one pass included) is in the output [n] times
    when [n >= 2] and not at all when [n < 2]. *)
Theorem C1_counts_occurrences (results : list (list jsstring)) :
  exists out,
    allCells (map cellArray results) = Ok (map JStr out) /\
    forall c,
      count_occ jsstring_dec out c =
      if (2 <=? occurrences c results)%nat then occurrences c results else 0%nat.
Proof.
  destruct (allCells_strings results) as [pre [Hpre [_ Hout]]].
  exists (sort localeCompare pre). split; [exact Hout|].
  intros c.
  rewrite (proj1 (Permutation_count_occ jsstring_dec _ _)
             (sort_perm localeCompare pre) c).
  rewrite <- votes_strings, <- Hpre, votes_aggregated, flat_cellArrays,
    votes_strings.
  reflexivity.
Qed.

(** C1 as stated fails: one pass that names A1 twice gives A1 two votes. *)
Lemma C1_repeats_in_one_pass_count :
  ~ (forall results c out,
       allCells (map cellArray results) = Ok (map JStr out) ->
       count_occ jsstring_dec out c =
       if (2 <=? namedBy c results)%nat then namedBy c results else 0%nat).
Proof.
  intros H.
  specialize (H [[js "A1"; js "A1"]] (js "A1") [js "A1"; js "A1"] eq_refl).
  vm_compute in H. discriminate H.
Qed.

Lemma named_once (c : jsstring) (p : list jsstring) :
  NoDup p ->
  count_occ jsstring_dec p c = if existsb (str_eqb c) p then 1%nat else 0%nat.
Proof.
  intros Hp.
  pose proof (proj1 (NoDup_count_occ jsstring_dec p) Hp c) as Hle.
  destruct (existsb (str_eqb c) p) eqn:E.
  - apply existsb_exists in E. destruct E as [x [Hx E]].
    apply str_eqb_eq in E. subst x.
    apply (count_occ_In jsstring_dec) in Hx. lia.
  - destruct (count_occ jsstring_dec p c) eqn:Ec; [reflexivity|].
    assert (In c p) as Hin by (apply (count_occ_In jsstring_dec); lia).
    assert (existsb (str_eqb c) p = true) as E'.
    { apply existsb_exists. exists c. split; [exact Hin | apply str_eqb_refl]. }
    congruence.
Qed.

(** Where no pass repeats a cell, occurrences are passes, and the
    aggregate is the one by distinct passes. *)
Lemma occurrences_are_passes (c : jsstring) (results : list (list jsstring)) :
  Forall (@NoDup _) results -> occurrences c results = namedBy c results.
Proof.
  unfold occurrences, namedBy.
  induction 1 as [|p results Hp _ IH]; [reflexivity|].
  cbn [List.concat filter]. rewrite count_occ_app, IH, (named_once c p Hp).
  now destruct (existsb (str_eqb c) p).
Qed.

End VoteProperties.

(* ================================================================== *)
(** * Properties of the labels and of the output order *)
(* ================================================================== *)

Module LabelProperties.
Import Collation Votes Spec SortFacts VoteFacts LabelFacts.






End LabelProperties.

(* ================================================================== *)
(** * Properties of the pipeline *)
(* ================================================================== *)

Module PipelineProperties.
Import Processor Types Votes Analyzer Spec Runs AnalyzerFacts.


(** C5 (the code as it is). Every consensus pass is sent the one buffer
    that [performInitialAnalysis] was given, as the original image and as
    the grid image alike: the calls logged are [numPasses] calls
    [analyzePair(imageBuffer, imageBuffer, ...)]. *)
Theorem C5_both_images_are_one_buffer {num} `{Number num}
    (a : ImageAnalyzer num) (imageBuffer : Buffer) (prompt : option jsstring)
    (s : State num) :
  exists log,
    calls (snd (performInitialAnalysis a imageBuffer prompt s)) = calls s ++ log /\
    List.length log = N.to_nat (numPasses a) /\
    forall c, In c log ->
      exists index adjusted temp,
        c = PairCall index imageBuffer imageBuffer adjusted temp.
Proof.
  rewrite performInitialAnalysis_run. cbn [snd calls].
  exists (map (callOf a imageBuffer prompt) (schedule a)).
  split; [reflexivity|]. split.
  - unfold schedule. now rewrite length_map, indexed_length, temperatures_length.
  - intros c Hc. apply in_map_iff in Hc. destruct Hc as [it [<- _]].
    unfold callOf. eauto.
Qed.

(** C10. The PNG that [transformImage] returns has a grid layer exactly
    when [addGrid] is set and the image is given as a path; for a buffer
    there is none. In [analyze] the image sent to the consensus passes is
    the given buffer re-encoded with nothing composited over it. *)
Theorem C10_grid_only_over_paths
    (metadata : jsstring + Buffer -> result (N * N))
    (options : ImageTransformOptions) (out : Buffer)
    (Hout : transformImage metadata options = Ok out) :
  (exists layers,
     out = Png (image options) layers /\
     existsb isGridLayer layers
       = addGrid options && negb (Buffer_isBuffer (image options))) /\
  (Buffer_isBuffer (image options) = true ->
   exists layers, out = Png (image options) layers /\
                  existsb isGridLayer layers = false) /\
  (forall num (HN : Number num) (env : Env num) (a : ImageAnalyzer num)
          imageBuffer prompt imagePath opts (s : State num),
   exists log,
     calls (snd (Analyzer.analyze env a imageBuffer prompt imagePath opts s))
       = calls s ++ log /\
     forall index original gridImage adjusted temp,
       In (PairCall index original gridImage adjusted temp) log ->
       gridImage = Png (inr imageBuffer) []).
Proof.
  assert (exists layers,
            out = Png (image options) layers /\
            existsb isGridLayer layers
              = addGrid options && negb (Buffer_isBuffer (image options)))
    as Hlayers.
  { unfold transformImage in Hout.
    destruct (metadata (image options)) as [[width height]|e]; [|discriminate].
    destruct ((width =? 0) || (height =? 0)); [discriminate|].
    destruct (regions options) as [|r rs].
    - injection Hout as <-. eexists. split; [reflexivity|].
      now destruct (addGrid options && negb (Buffer_isBuffer (image options))).
    - destruct (drawable (r :: rs)); [|discriminate].
      injection Hout as <-. eexists. split; [reflexivity|].
      rewrite existsb_app. cbn.
      now destruct (addGrid options && negb (Buffer_isBuffer (image options))). }
  split; [exact Hlayers|]. split.
  - intros Hbuf. destruct Hlayers as [layers [-> Hg]]. exists layers.
    split; [reflexivity|]. rewrite Hg, Hbuf. apply andb_false_r.
  - intros num HN env a imageBuffer prompt imagePath opts s.
    rewrite analyze_run, verify_run.
    destruct (transformImage (Analyzer.metadata env) (gridOptions a imageBuffer))
      as [gridImage|e] eqn:Hgrid.
    + assert (gridImage = Png (inr imageBuffer) []) as ->.
      { unfold transformImage, gridOptions in Hgrid. cbn in Hgrid.
        destruct (Analyzer.metadata env (inr imageBuffer)) as [[w h]|e];
          [|discriminate].
        destruct ((w =? 0) || (h =? 0)); [discriminate|]. now injection Hgrid. }
      assert (forall l index original gridImage adjusted temp,
                In (PairCall index original gridImage adjusted temp)
                   (map (callOf a (Png (inr imageBuffer) []) prompt) l) ->
                gridImage = Png (inr imageBuffer) []) as Hpairs.
      { intros l index original g adjusted temp Hin.
        apply in_map_iff in Hin. destruct Hin as [it [E _]].
        unfold callOf in E. now injection E. }
      destruct (consensus a prompt _) as [initialCells|e];
        [|eexists; split; [reflexivity | apply Hpairs]].
      destruct (transformImage _ (highlightOptions a imageBuffer initialCells))
        as [highlightedImage|e];
        [|eexists; split; [reflexivity | apply Hpairs]].
      destruct (saved env imagePath highlightedImage);
        [|eexists; split; [reflexivity | apply Hpairs]].
      destruct (verified_outcome _);
        (eexists; split; [unfold afterVerification, afterPasses;
                          cbn [snd calls];
                          rewrite <- app_assoc; reflexivity|]);
        intros index original g adjusted temp Hin;
        (apply in_app_or in Hin; destruct Hin as [Hin|[Hin|[]]];
         [eapply Hpairs; exact Hin | discriminate Hin]).
    + exists []. split; [cbn; now rewrite app_nil_r | intros ? ? ? ? ? []].
Qed.

Lemma C10_witness :
  (exists layers,
     Png (inr (Bytes 0)) [] = Png (inr (Bytes 0)) layers /\
     existsb isGridLayer layers = true && negb true) /\
  (true = true ->
   exists layers, Png (inr (Bytes 0)) [] = Png (inr (Bytes 0)) layers /\
                  existsb isGridLayer layers = false) /\
  (forall num (HN : Number num) (env : Env num) (a : ImageAnalyzer num)
          imageBuffer prompt imagePath opts (s : State num),
   exists log,
     calls (snd (Analyzer.analyze env a imageBuffer prompt imagePath opts s))
       = calls s ++ log /\
     forall index original gridImage adjusted temp,
       In (PairCall index original gridImage adjusted temp) log ->
       gridImage = Png (inr imageBuffer) []).
Proof.
  apply (C10_grid_only_over_paths (fun _ => Ok (500, 500))
           {| image := inr (Bytes 0);
              addGrid := true;
              regions := [];
              Processor.gridConfig := {| rows := 5; cols := 5 |};
              annotations := [] |}
           (Png (inr (Bytes 0)) [])).
  reflexivity.
Defined.

(** Over a path the same options do draw the grid. *)
Example grid_over_a_path :
  transformImage (fun _ => Ok (500, 500))
    {| image := inl (js "car.jpg");
       addGrid := true;
       regions := [];
       Processor.gridConfig := {| rows := 5; cols := 5 |};
       annotations := [] |}
  = Ok (Png (inl (js "car.jpg")) [GridLayer {| rows := 5; cols := 5 |} 500 500]).
Proof. reflexivity. Qed.


(** At 2.5 and 10 dollars per million, 1000 input and 100 output tokens
    cost 0.0035, in exact arithmetic and in binary64. *)
Example cost_of_a_priced_model :
  priced (num := exact) {| Types.input := lit 25 10; Types.output := lit 10 1 |}
         {| Analyzer.input := 1000; Analyzer.output := 100 |} = lit 35 10000 /\
  priced (num := float) {| Types.input := lit 25 10; Types.output := lit 10 1 |}
         {| Analyzer.input := 1000; Analyzer.output := 100 |} = lit 35 10000.
Proof. split; vm_compute; reflexivity. Qed.




(** The sample run of C4 does reach the verification call, and fails on
    its reply. *)
Example undecodable_verdict_run :
  fst (Analyzer.analyze (num := exact) sampleEnv
         (sampleAnalyzer AnthropicClient (js "claude-3-7-sonnet-latest")
                         B2 (Malformed (js "Sorry, no JSON today")) 4)
         (Bytes 0) (Some (js "Find rust spots")) None
         {| contiguousRegions := None |} usedState)
  = Throw ParseFailure.
Proof. vm_compute. reflexivity. Qed.

Lemma offersNothing_returned (resp : result (option InitialResponse)) :
  offersNothing resp -> returned resp = Ok (JArr []).
Proof.
  intros [ | u | raw u | v u Hv]; try reflexivity.
  unfold returned, parseCells, cellsOf. cbn [text].
  unfold namesNoCell, cellsProperty in Hv.
  destruct v as [ | b | q | str | items | fields]; try reflexivity.
  destruct (field (js "cells") fields) as [c|]; [|reflexivity].
  destruct Hv as [Hv | ->]; [now rewrite Hv | reflexivity].
Qed.

Lemma flat_without_empty (before after : list json) :
  flat (before ++ JArr [] :: after) = flat (before ++ after).
Proof. unfold flat. now rewrite !flat_map_app. Qed.

Lemma collect_nothing {A} (f : A -> result json) (l : list A) :
  (forall x, In x l -> f x = Ok (JArr [])) ->
  collect (map f l) = Ok (map (fun _ => JArr []) l).
Proof.
  induction l as [|x l IH]; intros Hl; [reflexivity|].
  cbn [map collect]. rewrite (Hl x (or_introl eq_refl)), IH; [reflexivity|].
  intros y Hy. apply Hl. now right.
Qed.

Lemma allCells_nothing {A} (l : list A) :
  allCells (map (fun _ => JArr []) l) = Ok [].
Proof.
  unfold allCells. replace (flat (map (fun _ => JArr []) l)) with (@nil json).
  - reflexivity.
  - unfold flat. induction l as [|x l IH]; [reflexivity | exact IH].
Qed.

(** C3 (as amended). A pass whose response is missing, has no string text,
    has a text that does not decode, or decodes to a value that names no
    cell returns the empty array and does not throw, and the empty array
    adds nothing to the votes. When all the passes of an invocation are
    such, the aggregate is empty and the verification call is made with an
    empty list of cells (the grid overlay having been rendered, and the
    verification image written where one is asked for). *)
Theorem C3_empty_passes_are_absorbed {num} `{Number num}
    (env : Env num) (a : ImageAnalyzer num) (imageBuffer : Buffer)
    (prompt imagePath : option jsstring) (opts : Options) (s : State num)
    (gridImage : Buffer)
    (Hgrid : transformImage (Analyzer.metadata env) (gridOptions a imageBuffer)
             = Ok gridImage)
    (Hall : forall it, In it (schedule a) ->
                       offersNothing (request a gridImage prompt it))
    (Hsaved : forall h, saved env imagePath h = Ok tt) :
  (forall (b : ImageAnalyzer num) buffer p it s0,
     offersNothing (request b buffer p it) ->
     fst (pass b buffer p (fst it) (snd it) s0) = Ok (JArr [])) /\
  (forall before after,
     allCells (before ++ JArr [] :: after) = allCells (before ++ after)) /\
  (forall s0, fst (performInitialAnalysis a gridImage prompt s0) = Ok []) /\
  exists highlightedImage,
    In (AnalyzeCall highlightedImage (promptFor prompt opts []))
       (calls (snd (Analyzer.analyze env a imageBuffer prompt imagePath opts s))).
Proof.
  assert (consensus a prompt gridImage = Ok []) as Hnone.
  { unfold consensus. rewrite collect_nothing.
    - apply allCells_nothing.
    - intros it Hit. apply offersNothing_returned, Hall, Hit. }
  split; [|split; [|split]].
  - intros b buffer p it s0 Hb. rewrite pass_run. cbn [fst].
    now apply offersNothing_returned.
  - intros before after. unfold allCells. now rewrite flat_without_empty.
  - intros s0. rewrite performInitialAnalysis_run. exact Hnone.
  - rewrite analyze_run, verify_run, Hgrid, Hnone.
    assert (exists h, transformImage (Analyzer.metadata env)
                        (highlightOptions a imageBuffer []) = Ok h) as [h Hh].
    { unfold transformImage, gridOptions in Hgrid. cbn in Hgrid.
      unfold transformImage, highlightOptions. cbn.
      destruct (Analyzer.metadata env (inr imageBuffer)) as [[w ht]|e];
        [|discriminate].
      destruct ((w =? 0) || (ht =? 0)); [discriminate|]. eauto. }
    rewrite Hh, Hsaved. exists h.
    destruct (verified_outcome _); cbn [snd calls afterVerification];
      apply in_or_app; right; now left.
Qed.

Lemma C3_witness :
  (forall (b : ImageAnalyzer exact) buffer p it s0,
     offersNothing (request b buffer p it) ->
     fst (pass b buffer p (fst it) (snd it) s0) = Ok (JArr [])) /\
  (forall before after,
     allCells (before ++ JArr [] :: after) = allCells (before ++ after)) /\
  (forall s0 : State exact,
     fst (performInitialAnalysis
            (sampleAnalyzer AnthropicClient (js "claude-3-7-sonnet-latest")
               (Malformed (js "I see rust in B2")) (Encoded rust) 4)
            (Png (inr (Bytes 0)) []) (Some (js "Find rust spots")) s0) = Ok []) /\
  exists highlightedImage,
    In (AnalyzeCall highlightedImage
          (promptFor (Some (js "Find rust spots")) {| contiguousRegions := None |} []))
       (calls (snd (Analyzer.analyze (num := exact) sampleEnv
                      (sampleAnalyzer AnthropicClient (js "claude-3-7-sonnet-latest")
                         (Malformed (js "I see rust in B2")) (Encoded rust) 4)
                      (Bytes 0) (Some (js "Find rust spots")) None
                      {| contiguousRegions := None |} usedState))).
Proof.
  apply (C3_empty_passes_are_absorbed (num := exact) sampleEnv
           (sampleAnalyzer AnthropicClient (js "claude-3-7-sonnet-latest")
              (Malformed (js "I see rust in B2")) (Encoded rust) 4)
           (Bytes 0) (Some (js "Find rust spots")) None
           {| contiguousRegions := None |} usedState (Png (inr (Bytes 0)) [])).
  - reflexivity.
  - intros it _. apply unparseable.
  - intros h. reflexivity.
Defined.

(** C3 as stated fails for a response of the wrong shape: a [cells] that
    is a string counts as a cell, and a [cells] with a number in it makes
    the sort, and with it the whole batch, throw. *)
Lemma C3_wrong_shape_is_not_absorbed :
  (forall s0,
     fst (performInitialAnalysis (num := exact)
            (sampleAnalyzer AnthropicClient (js "claude-3-7-sonnet-latest")
               (Encoded (JObj [(js "cells", JStr (js "A1"))])) (Encoded rust) 2)
            (Bytes 0) None s0)
     = Ok [JStr (js "A1"); JStr (js "A1")]) /\
  (forall s0,
     fst (performInitialAnalysis (num := exact)
            (sampleAnalyzer AnthropicClient (js "claude-3-7-sonnet-latest")
               (Encoded (JObj [(js "cells", JArr [JNum 5])])) (Encoded rust) 2)
            (Bytes 0) None s0)
     = Throw TypeError).
Proof.
  split; intros s0; rewrite performInitialAnalysis_run; reflexivity.
Qed.

Lemma conforming_counted {num} `{Number num} (a : ImageAnalyzer num)
    (g : Buffer) (prompt : option jsstring) (it : nat * num) :
  conforming (client a) ->
  counted (request a g prompt it) = reportedUsage (client a) (callOf a g prompt it).
Proof.
  intros Hc. unfold counted, request, reportedUsage, callOf.
  destruct (analyzePair _ _ _ _ _ _) as [[r|]|e] eqn:E; try reflexivity.
  destruct (text r) eqn:Et; [reflexivity|].
  now destruct (Hc _ _ _ _ _ _ E).
Qed.

Lemma sumN_app (l1 l2 : list N) : sumN (l1 ++ l2) = sumN l1 + sumN l2.
Proof.
  induction l1 as [|x l1 IH]; simpl; [reflexivity|]. rewrite IH. lia.
Qed.

Lemma sumN_single (x : N) : sumN [x] = x.
Proof. unfold sumN. simpl. lia. Qed.

(** C7. [analyze] starts from an empty ledger whatever was left in it: the
    [tokens] of a result are the sums of the usage that the backend
    reported for the calls of this invocation, which are [numPasses]
    consensus calls followed by one verification call, and [total] is
    [input + output]. (The client keeps to its interface: the text of a
    response is a string.) *)
Theorem C7_tokens_are_summed {num} `{Number num}
    (env : Env num) (a : ImageAnalyzer num) (imageBuffer : Buffer)
    (prompt imagePath : option jsstring) (opts : Options)
    (s s' : State num) (r : AnalysisResponse num)
    (Hclient : conforming (client a))
    (Hrun : Analyzer.analyze env a imageBuffer prompt imagePath opts s = (Ok r, s')) :
  exists passes refinement,
    calls s' = calls s ++ passes ++ [refinement] /\
    List.length passes = N.to_nat (numPasses a) /\
    Forall isPairCall passes /\
    isAnalyzeCall refinement /\
    report_input (tokens r)
      = sumN (map (fun c => fst (reportedUsage (client a) c))
                  (passes ++ [refinement])) /\
    report_output (tokens r)
      = sumN (map (fun c => snd (reportedUsage (client a) c))
                  (passes ++ [refinement])) /\
    total (tokens r) = report_input (tokens r) + report_output (tokens r).
Proof.
  rewrite analyze_run, verify_run in Hrun.
  destruct (transformImage _ (gridOptions a imageBuffer)) as [gridImage|e];
    [|discriminate].
  destruct (consensus a prompt gridImage) as [initialCells|e]; [|discriminate].
  destruct (transformImage _ (highlightOptions a imageBuffer initialCells))
    as [highlightedImage|e]; [|discriminate].
  destruct (saved env imagePath highlightedImage) as [u|e]; [|discriminate].
  destruct (verified_outcome _) as [fields|e]; [|discriminate].
  injection Hrun as <- <-.
  exists (map (callOf a gridImage prompt) (schedule a)),
         (AnalyzeCall highlightedImage (promptFor prompt opts initialCells)).
  unfold afterVerification, afterPasses.
  cbn [tokens report_input report_output total totalTokens calls plus
       Analyzer.input Analyzer.output fst snd total2].
  split; [now rewrite <- app_assoc|]. split.
  { unfold schedule. now rewrite length_map, indexed_length, temperatures_length. }
  split.
  { apply Forall_forall. intros c Hc. apply in_map_iff in Hc.
    now destruct Hc as [it [<- _]]. }
  split; [exact I|].
  split; [|split; [|reflexivity]];
    rewrite map_app, sumN_app, !map_map; cbn [map];
    rewrite sumN_single, ?N.add_0_l;
    (apply f_equal2; [|reflexivity]); apply f_equal;
    apply map_ext; intros it; now rewrite conforming_counted.
Qed.

Lemma C7_witness :
  exists r s',
    Analyzer.analyze (num := exact) sampleEnv
      (sampleAnalyzer OpenAIClient (js "gpt-4.1") B2 (Encoded rust) 4)
      (Bytes 0) (Some (js "Find rust spots")) None
      {| contiguousRegions := None |} usedState = (Ok r, s') /\
    report_input (tokens r) = 600 /\
    report_output (tokens r) = 60 /\
    total (tokens r) = 660 /\
    exists passes refinement,
      calls s' = calls usedState ++ passes ++ [refinement] /\
      List.length passes = N.to_nat 4 /\
      Forall isPairCall passes /\
      isAnalyzeCall refinement /\
      report_input (tokens r)
        = sumN (map (fun c => fst (reportedUsage
                                     (sampleClient OpenAIClient (js "gpt-4.1")
                                                   B2 (Encoded rust)) c))
                    (passes ++ [refinement])) /\
      report_output (tokens r)
        = sumN (map (fun c => snd (reportedUsage
                                     (sampleClient OpenAIClient (js "gpt-4.1")
                                                   B2 (Encoded rust)) c))
                    (passes ++ [refinement])) /\
      total (tokens r) = report_input (tokens r) + report_output (tokens r).
Proof.
  eexists. eexists. split; [vm_compute; reflexivity|].
  split; [reflexivity|]. split; [reflexivity|]. split; [reflexivity|].
  apply (C7_tokens_are_summed (num := exact) sampleEnv
           (sampleAnalyzer OpenAIClient (js "gpt-4.1") B2 (Encoded rust) 4)
           (Bytes 0) (Some (js "Find rust spots")) None
           {| contiguousRegions := None |} usedState).
  - intros i o g p t r E. injection E as <-. discriminate.
  - vm_compute. reflexivity.
Defined.

(** The whole pipeline on a sample: four passes that each answer B2, a
    verification that answers one region holding B2; five calls, 600 and 60
    tokens, priced by the table. *)
Example rust_spots :
  exists r s',
    Analyzer.analyze (num := exact) sampleEnv
      (sampleAnalyzer OpenAIClient (js "gpt-4.1") B2 (Encoded rust) 4)
      (Bytes 0) (Some (js "Find rust spots")) None
      {| contiguousRegions := None |} usedState = (Ok r, s') /\
    field (js "regions") (verified r)
      = Some (JArr [JObj [(js "title", JStr (js "Rust"));
                          (js "cells", JArr [JStr (js "B2")])]]) /\
    total (tokens r) = 660 /\
    cost (tokens r) = lit 168 100000 /\
    report_modelName (tokens r) = js "gpt-4.1" /\
    List.length (calls s') = 5%nat.
Proof.
  eexists. eexists. split; [vm_compute; reflexivity|].
  repeat split; vm_compute; reflexivity.
Qed.

End PipelineProperties.

(* ================================================================== *)
(** * Properties of the temperature schedule *)
(* ================================================================== *)

Module TemperatureProperties.
Import Processor Types Analyzer Spec Runs.

Lemma schedule_nth {num} `{Number num} (a : ImageAnalyzer num) (i : nat) :
  (i < N.to_nat (numPasses a))%nat ->
  nth_error (temperatures a) i
  = Some (add (low (class (client a)))
              (div (mul (ofN (N.of_nat i)) (lit 6 10))
                   (ofZ (Z.of_N (numPasses a) - 1)))).
Proof.
  intros Hi. unfold temperatures.
  rewrite nth_error_map.
  rewrite (nth_error_nth' (seq 0 (N.to_nat (numPasses a))) 0%nat)
    by now rewrite length_seq.
  now rewrite seq_nth.
Qed.

Lemma span_is_six_tenths (cls : ClientClass) :
  (rangeHigh cls - rangeLow cls == 6 # 10)%Q.
Proof. now destruct cls. Qed.

Lemma low_exact (cls : ClientClass) : low cls = Fin (Qred (rangeLow cls)).
Proof. now destruct cls. Qed.

Lemma positive_sign (z : Z) : (0 < z)%Z -> Q_sign (Qred (z # 1)) = Gt.
Proof.
  intros Hz. unfold Q_sign.
  change 0%Q with (Qred 0). rewrite <- Qred_compare.
  unfold Qcompare. simpl. apply Z.compare_gt_iff. lia.
Qed.

(** C2 (as amended). For two passes or more the temperatures are
    [numPasses] values, the one of pass [i] being
    [low + i * (high - low) / (numPasses - 1)] over 0.2 to 0.8 for the
    Anthropic client and over 0.4 to 1.0 for any other; four passes over
    0.2 to 0.8 get 0.2, 0.4, 0.6, 0.8, in exact arithmetic and in binary64
    alike. *)
Theorem C2_evenly_spaced (a : ImageAnalyzer exact) (Hpasses : 2 <= numPasses a) :
  List.length (temperatures a) = N.to_nat (numPasses a) /\
  (forall i, (i < N.to_nat (numPasses a))%nat ->
     exists t,
       nth_error (temperatures a) i = Some (Fin t) /\
       (t == rangeLow (class (client a))
             + (Z.of_nat i # 1)
               * (rangeHigh (class (client a)) - rangeLow (class (client a)))
               / ((Z.of_N (numPasses a) - 1) # 1))%Q) /\
  (numPasses a = 4 -> class (client a) = AnthropicClient ->
   temperatures a = [lit 2 10; lit 4 10; lit 6 10; lit 8 10]) /\
  (forall b : ImageAnalyzer float,
     numPasses b = 4 -> class (client b) = AnthropicClient ->
     temperatures b = [lit 2 10; lit 4 10; lit 6 10; lit 8 10]).
Proof.
  split; [apply AnalyzerFacts.temperatures_length|]. split; [|split].
  - intros i Hi. rewrite (schedule_nth a i Hi), low_exact.
    cbn [add mul div ofN ofZ lit exact_Number exact_add exact_mul exact_div].
    rewrite positive_sign by lia.
    eexists. split; [reflexivity|].
    rewrite !Qred_correct, span_is_six_tenths.
    now rewrite nat_N_Z.
  - intros H4 Hcls. unfold temperatures. rewrite H4, Hcls. reflexivity.
  - intros b H4 Hcls. unfold temperatures. rewrite H4, Hcls.
    vm_compute. reflexivity.
Qed.

Lemma C2_witness :
  List.length (temperatures (sampleAnalyzer (num := exact) OpenAIClient
                               (js "gpt-4.1") B2 B2 3)) = N.to_nat 3 /\
  (forall i, (i < N.to_nat 3)%nat ->
     exists t,
       nth_error (temperatures (sampleAnalyzer (num := exact) OpenAIClient
                                  (js "gpt-4.1") B2 B2 3)) i = Some (Fin t) /\
       (t == rangeLow OpenAIClient
             + (Z.of_nat i # 1) * (rangeHigh OpenAIClient - rangeLow OpenAIClient)
               / ((Z.of_N 3 - 1) # 1))%Q) /\
  (3 = 4 -> OpenAIClient = AnthropicClient ->
   temperatures (sampleAnalyzer (num := exact) OpenAIClient (js "gpt-4.1") B2 B2 3)
   = [lit 2 10; lit 4 10; lit 6 10; lit 8 10]) /\
  (forall b : ImageAnalyzer float,
     numPasses b = 4 -> class (client b) = AnthropicClient ->
     temperatures b = [lit 2 10; lit 4 10; lit 6 10; lit 8 10]).
Proof.
  apply (C2_evenly_spaced
           (sampleAnalyzer (num := exact) OpenAIClient (js "gpt-4.1") B2 B2 3)).
  simpl. lia.
Defined.

(** C2 as stated fails for one pass: there is no special case, the formula
    divides zero by zero and the only temperature is NaN, whichever the
    arithmetic. A configuration with [numPasses: 1] is accepted as it is. *)
Lemma C2_single_pass_is_NaN :
  (exists a1,
     new_ImageAnalyzer (num := exact) sampleEnv
       {| provider := anthropic; model := None; Types.numPasses := Some 1;
          Types.client := None |}
       {| rows := 5; cols := 5 |} = Ok a1 /\
     temperatures a1 = [NaN]) /\
  temperatures (sampleAnalyzer (num := float) AnthropicClient
                  (js "claude-3-7-sonnet-latest") B2 B2 1) = [PrimFloat.nan].
Proof.
  split.
  - eexists. split; reflexivity.
  - vm_compute. reflexivity.
Qed.

End TemperatureProperties.

(* ================================================================== *)
(** * Labels read back *)
(* ================================================================== *)

Module ReadBack.
Import Collation Spec Highlighter LabelFacts.

Lemma digit_range (c : N) : isDigit c = true -> 48 <= c <= 57.
Proof.
  unfold isDigit. intros H. apply andb_true_iff in H.
  destruct H as [H1 H2]. apply N.leb_le in H1, H2. lia.
Qed.

Lemma digit_cases (c : N) :
  isDigit c = true ->
  c = 48 \/ c = 49 \/ c = 50 \/ c = 51 \/ c = 52 \/
  c = 53 \/ c = 54 \/ c = 55 \/ c = 56 \/ c = 57.
Proof. intros H. apply digit_range in H. lia. Qed.

Lemma digitValue_decimal (c : N) :
  isDigit c = true -> digitValue 10 c = Some (c - 48).
Proof. unfold isDigit, digitValue. now intros ->. Qed.

Lemma readDigits_decimal (ds : jsstring) (v : N) :
  forallb isDigit ds = true ->
  readDigits 10 ds (Some v) = Some (fold_left step ds v).
Proof.
  revert v. induction ds as [|d ds IH]; intros v H; [reflexivity|].
  cbn [forallb] in H. apply andb_true_iff in H. destruct H as [Hd Hds].
  cbn [readDigits fold_left]. rewrite (digitValue_decimal d Hd).
  now rewrite IH.
Qed.

Lemma readDigits_start (d : N) (ds : jsstring) :
  forallb isDigit (d :: ds) = true ->
  readDigits 10 (d :: ds) None = Some (fold_left step (d :: ds) 0).
Proof.
  intros H. cbn [forallb] in H. apply andb_true_iff in H.
  destruct H as [Hd Hds].
  cbn [readDigits fold_left]. rewrite (digitValue_decimal d Hd).
  now rewrite readDigits_decimal.
Qed.

(** [parseInt] of a string of decimal digits is its value. *)
Lemma parseInt_decimal (ds : jsstring) :
  ds <> [] -> forallb isDigit ds = true ->
  parseInt ds = Some (Z.of_N (fold_left step ds 0)).
Proof.
  intros Hne Hall. destruct ds as [|d ds]; [congruence|].
  pose proof (readDigits_start d ds Hall) as Hread.
  pose proof Hall as Hall'.
  cbn [forallb] in Hall'. apply andb_true_iff in Hall'.
  destruct Hall' as [Hd Hds].
  destruct (digit_cases d Hd) as [->|[->|[->|[->|[->|[->|[->|[->|[->| ->]]]]]]]]];
    try (unfold parseInt; cbn [trimStart isWhiteSpace existsb N.eqb Pos.eqb orb];
         rewrite Hread; reflexivity).
  destruct ds as [|e es].
  - reflexivity.
  - cbn [forallb] in Hds. apply andb_true_iff in Hds. destruct Hds as [He _].
    destruct (digit_cases e He) as [->|[->|[->|[->|[->|[->|[->|[->|[->| ->]]]]]]]]];
      unfold parseInt; cbn [trimStart isWhiteSpace existsb N.eqb Pos.eqb orb];
      rewrite Hread; reflexivity.
Qed.

Lemma parseInt_digits (n : N) : parseInt (digits n) = Some (Z.of_N n).
Proof.
  rewrite parseInt_decimal.
  - now rewrite digits_value.
  - apply digitsFrom_nonempty.
  - now apply digitsFrom_isDigit.
Qed.

(** The label of a row below 65471 begins with the code unit 65 + row. *)
Lemma label_units (r c : N) :
  r < 65471 -> GridGenerator.label r c = (65 + r) :: digits (c + 1).
Proof.
  intros Hr. unfold GridGenerator.label, String_fromCharCode, Number_toString.
  rewrite Z.mod_small by lia.
  replace (Z.to_N (65 + Z.of_N r)) with (65 + r) by lia.
  destruct (Z.of_N c + 1)%Z eqn:E; try lia.
  simpl. f_equal. f_equal. lia.
Qed.

Lemma NoDup_list_prod {A B} (l : list A) (l' : list B) :
  NoDup l -> NoDup l' -> NoDup (list_prod l l').
Proof.
  intros Hl Hl'. induction Hl as [|x l Hx Hl IH]; [constructor|].
  cbn [list_prod]. apply NoDup_app.
  - apply NoDup_map_NoDup_ForallPairs; [|exact Hl'].
    intros a b _ _ E. now injection E.
  - exact IH.
  - intros [a b] Hin Hin'. apply in_map_iff in Hin.
    destruct Hin as [b' [E _]]. injection E as <- <-.
    apply in_prod_iff in Hin'. now destruct Hin'.
Qed.

Lemma generateLabels_prod (rows cols : N) :
  GridGenerator.generateLabels rows cols =
  map (fun rc => GridGenerator.label (N.of_nat (fst rc)) (N.of_nat (snd rc)))
      (list_prod (seq 0 (N.to_nat rows)) (seq 0 (N.to_nat cols))).
Proof.
  unfold GridGenerator.generateLabels.
  induction (seq 0 (N.to_nat rows)) as [|r l IH]; [reflexivity|].
  cbn [flat_map list_prod]. rewrite map_app, map_map, IH. reflexivity.
Qed.

End ReadBack.

Module ReadBackProperties.
Import Collation Spec Highlighter LabelFacts ReadBack.

(** X1. What the highlighter reads from the label that the grid generator
    draws in a cell is the row and the column index of that cell. *)
Theorem label_read_back (row col : N)
    (Hrow : row < 65471) (Hcol : col + 1 < 2 ^ 53) :
  cellIndices (GridGenerator.label row col) = (Some (Z.of_N row), Some (Z.of_N col)).
Proof.
  rewrite label_units by exact Hrow.
  unfold cellIndices, charCodeAt0, slice1. cbn [tl option_map].
  rewrite parseInt_digits. cbn [option_map]. f_equal; f_equal; lia.
Qed.

Lemma label_read_back_witness :
  cellIndices (GridGenerator.label 25 25) = (Some (Z.of_N 25), Some (Z.of_N 25)).
Proof. apply (label_read_back 25 25); reflexivity. Defined.

(** X2. A grid of at most 65471 rows has one label per cell and no label
    twice. *)
Theorem labels_are_distinct (rows cols : N)
    (Hrows : rows <= 65471) (Hcols : cols < 2 ^ 53) :
  NoDup (GridGenerator.generateLabels rows cols) /\
  List.length (GridGenerator.generateLabels rows cols) = N.to_nat (rows * cols).
Proof.
  rewrite generateLabels_prod. split.
  - apply NoDup_map_NoDup_ForallPairs.
    + intros [r1 c1] [r2 c2] H1 H2 E. apply in_prod_iff in H1, H2.
      destruct H1 as [Hr1 _], H2 as [Hr2 _]. apply in_seq in Hr1, Hr2.
      cbn [fst snd] in E.
      rewrite !label_units in E by lia.
      pose proof (f_equal (hd 0) E) as E1.
      pose proof (f_equal (fun l => parseInt (tl l)) E) as E2.
      cbn [hd tl] in E1, E2. rewrite !parseInt_digits in E2.
      assert (Z.of_N (N.of_nat c1 + 1) = Z.of_N (N.of_nat c2 + 1)) by congruence.
      f_equal; lia.
    + apply NoDup_list_prod; apply seq_NoDup.
  - rewrite length_map, length_prod, !length_seq. lia.
Qed.

Lemma labels_are_distinct_witness :
  NoDup (GridGenerator.generateLabels 26 26) /\
  List.length (GridGenerator.generateLabels 26 26) = N.to_nat (26 * 26).
Proof. apply (labels_are_distinct 26 26); [lia | reflexivity]. Defined.

End ReadBackProperties.

(* ================================================================== *)
(** * Further facts about the runs of the analyzer *)
(* ================================================================== *)

Module RunFacts.
Import Processor Types Votes Analyzer Spec Runs MoreSpec VoteFacts AnalyzerFacts.

Lemma nth_error_indexed {A} (l : list A) (k i : nat) :
  nth_error (indexed k l) i = option_map (fun x => ((k + i)%nat, x)) (nth_error l i).
Proof.
  revert k i. induction l as [|x l IH]; intros k i.
  - now destruct i.
  - destruct i as [|i]; cbn [indexed nth_error option_map].
    + now rewrite Nat.add_0_r.
    + rewrite IH. now rewrite Nat.add_succ_comm.
Qed.

Lemma collect_throw {A} (rs : list (result A)) (e : error) :
  In (Throw e) rs -> exists e', collect rs = Throw e' /\ In (Throw e') rs.
Proof.
  induction rs as [|r rs IH]; intros Hin; [destruct Hin|].
  cbn [collect]. destruct r as [x|e0].
  - destruct Hin as [Hin|Hin]; [discriminate|].
    destruct (IH Hin) as [e' [-> Hin']]. exists e'. split; [reflexivity | now right].
  - exists e0. split; [reflexivity | now left].
Qed.

(** The overlay step on a buffer, when it succeeds, re-encodes the buffer
    with no layer over it. *)
Lemma grid_step {num} (a : ImageAnalyzer num) (metadata : jsstring + Buffer -> result (N * N))
    (imageBuffer gridImage : Buffer) :
  transformImage metadata (gridOptions a imageBuffer) = Ok gridImage ->
  gridImage = Png (inr imageBuffer) [].
Proof.
  unfold transformImage, gridOptions. cbn.
  destruct (metadata (inr imageBuffer)) as [[w h]|e]; [|discriminate].
  destruct ((w =? 0) || (h =? 0)); [discriminate|]. now intros [= <-].
Qed.

(** The repeated votes are none or at least two. *)
Lemma repeated_length (m : Map) :
  List.length (repeated m) = 0%nat \/ (2 <= List.length (repeated m))%nat.
Proof.
  induction m as [|[k v] m IH]; [now left|].
  rewrite repeated_cons, length_app.
  destruct (2 <=? v)%nat eqn:E.
  - right. rewrite repeat_length. apply Nat.leb_le in E. lia.
  - exact IH.
Qed.

Lemma strings_isString (l : list json) (ss : list jsstring) :
  strings l = Some ss -> l = map JStr ss.
Proof.
  revert ss. induction l as [|x l IH]; intros ss H.
  - now injection H as <-.
  - destruct x; try discriminate. cbn [strings] in H.
    destruct (strings l) as [ss'|]; [|discriminate].
    injection H as <-. now rewrite (IH ss' eq_refl).
Qed.

Lemma isString_map (ss : list jsstring) : forallb isString (map JStr ss) = true.
Proof. induction ss as [|s ss IH]; [reflexivity | exact IH]. Qed.

Lemma allCells_isString (results cells : list json) :
  allCells results = Ok cells -> forallb isString cells = true.
Proof.
  unfold allCells. intros H.
  destruct (repeated_length (cellCounts (flat results))) as [Hl|Hl];
    destruct (repeated (cellCounts (flat results))) as [|x [|y l]];
    cbn [List.length] in Hl; try lia.
  - now injection H as <-.
  - unfold sortCells in H.
    destruct (strings (x :: y :: l)) as [ss|] eqn:Es; [|discriminate].
    injection H as <-. apply isString_map.
Qed.

Section Log.
Context {num : Type} `{Number num}.
Variable env : Env num.
Variable a : ImageAnalyzer num.
Variable imageBuffer : Buffer.
Variable prompt : option jsstring.
Variable imagePath : option jsstring.
Variable options : Options.

(** The calls of an invocation: none when the overlay step fails; the
    passes, and after them at most the verification call. *)
Lemma analyze_log (s : State num) :
  calls (snd (Analyzer.analyze env a imageBuffer prompt imagePath options s))
    = calls s \/
  exists rest,
    calls (snd (Analyzer.analyze env a imageBuffer prompt imagePath options s))
      = calls s ++ map (callOf a (Png (inr imageBuffer) []) prompt) (schedule a)
                ++ rest /\
    (rest = [] \/
     exists h initialCells,
       rest = [AnalyzeCall h (promptFor prompt options initialCells)]).
Proof.
  rewrite analyze_run, verify_run.
  destruct (transformImage (Analyzer.metadata env) (gridOptions a imageBuffer))
    as [gridImage|e] eqn:Hgrid; [|now left].
  apply grid_step in Hgrid. subst gridImage. right.
  destruct (consensus a prompt _) as [initialCells|e];
    [|exists []; rewrite app_nil_r; split; [reflexivity | now left]].
  destruct (transformImage _ (highlightOptions a imageBuffer initialCells))
    as [highlightedImage|e];
    [|exists []; rewrite app_nil_r; split; [reflexivity | now left]].
  destruct (saved env imagePath highlightedImage);
    [|exists []; rewrite app_nil_r; split; [reflexivity | now left]].
  exists [AnalyzeCall highlightedImage (promptFor prompt options initialCells)].
  split; [|right; eauto].
  destruct (verified_outcome _); unfold afterVerification, afterPasses;
    cbn [snd calls]; now rewrite <- app_assoc.
Qed.

End Log.

End RunFacts.

(* ================================================================== *)
(** * Further properties of the pipeline *)
(* ================================================================== *)

Module RunProperties.
Import Processor Types Votes Analyzer Spec Runs MoreSpec AnalyzerFacts RunFacts.

(** X3. The passes are called in the order of their index, pass [i] with
    the [i]-th temperature of the schedule. Pass 0 is asked to be liberal;
    of two passes or more the last is asked to be conservative; the passes
    between are sent the prompt as it was given. *)
Theorem passes_in_order {num} `{Number num}
    (a : ImageAnalyzer num) (imageBuffer : Buffer) (prompt : option jsstring)
    (s : State num) (i : nat) (Hi : (i < N.to_nat (numPasses a))%nat) :
  exists log temp adjusted,
    calls (snd (performInitialAnalysis a imageBuffer prompt s)) = calls s ++ log /\
    nth_error (temperatures a) i = Some temp /\
    nth_error log i = Some (PairCall i imageBuffer imageBuffer adjusted temp) /\
    (i = 0%nat -> adjusted = Some (orEmpty prompt ++ liberal)) /\
    (i <> 0%nat -> S i = N.to_nat (numPasses a) ->
     adjusted = Some (orEmpty prompt ++ conservative)) /\
    (i <> 0%nat -> S i <> N.to_nat (numPasses a) -> adjusted = prompt).
Proof.
  rewrite performInitialAnalysis_run. cbn [snd calls].
  destruct (nth_error (temperatures a) i) as [temp|] eqn:Et.
  2:{ apply nth_error_None in Et. rewrite temperatures_length in Et. lia. }
  exists (map (callOf a imageBuffer prompt) (schedule a)), temp,
         (adjustedPrompt a prompt i).
  split; [reflexivity|]. split; [reflexivity|]. split.
  - rewrite nth_error_map. unfold schedule. rewrite nth_error_indexed, Et.
    reflexivity.
  - unfold adjustedPrompt. split; [|split].
    + now intros ->.
    + intros Hne Hlast. destruct (i =? 0)%nat eqn:E0.
      * apply Nat.eqb_eq in E0. contradiction.
      * replace (Z.of_nat i =? Z.of_N (numPasses a) - 1)%Z with true;
          [reflexivity|]. symmetry. apply Z.eqb_eq. lia.
    + intros Hne Hmid. destruct (i =? 0)%nat eqn:E0.
      * apply Nat.eqb_eq in E0. contradiction.
      * replace (Z.of_nat i =? Z.of_N (numPasses a) - 1)%Z with false;
          [reflexivity|]. symmetry. apply Z.eqb_neq. lia.
Qed.

Lemma passes_in_order_witness :
  exists log temp adjusted,
    calls (snd (performInitialAnalysis (num := exact)
                  (sampleAnalyzer AnthropicClient (js "claude-3-7-sonnet-latest")
                                  B2 (Encoded rust) 4)
                  (Bytes 0) (Some (js "Find rust spots")) usedState))
      = calls usedState ++ log /\
    nth_error (temperatures (sampleAnalyzer (num := exact) AnthropicClient
                               (js "claude-3-7-sonnet-latest") B2 (Encoded rust) 4))
              3 = Some temp /\
    nth_error log 3 = Some (PairCall 3 (Bytes 0) (Bytes 0) adjusted temp) /\
    (3 = 0 -> adjusted = Some (orEmpty (Some (js "Find rust spots")) ++ liberal))%nat /\
    (3 <> 0 -> 4 = N.to_nat 4 ->
     adjusted = Some (orEmpty (Some (js "Find rust spots")) ++ conservative))%nat /\
    (3 <> 0 -> 4 <> N.to_nat 4 -> adjusted = Some (js "Find rust spots"))%nat.
Proof.
  apply (passes_in_order (num := exact)
           (sampleAnalyzer AnthropicClient (js "claude-3-7-sonnet-latest")
                           B2 (Encoded rust) 4)
           (Bytes 0) (Some (js "Find rust spots")) usedState 3%nat).
  simpl. lia.
Defined.

(** X4. A rejected backend call of a pass is not absorbed: [analyze]
    throws the rejection of one of its passes and returns no result. All
    the passes were called by then, and the verification call is not
    made. *)
Theorem rejected_pass_is_fatal {num} `{Number num}
    (env : Env num) (a : ImageAnalyzer num) (imageBuffer : Buffer)
    (prompt imagePath : option jsstring) (opts : Options) (s : State num)
    (gridImage : Buffer) (it : nat * num) (e : error)
    (Hgrid : transformImage (Analyzer.metadata env) (gridOptions a imageBuffer)
             = Ok gridImage)
    (Hit : In it (schedule a))
    (Hrejected : request a gridImage prompt it = Throw e) :
  exists e' s',
    Analyzer.analyze env a imageBuffer prompt imagePath opts s = (Throw e', s') /\
    (exists it', In it' (schedule a) /\ request a gridImage prompt it' = Throw e') /\
    calls s' = calls s ++ map (callOf a gridImage prompt) (schedule a) /\
    List.length (map (callOf a gridImage prompt) (schedule a))
      = N.to_nat (numPasses a).
Proof.
  rewrite analyze_run, verify_run, Hgrid.
  destruct (collect_throw
              (map (fun it => returned (request a gridImage prompt it)) (schedule a)) e)
    as [e' [Hc Hin]].
  { apply in_map_iff. exists it. split; [|exact Hit].
    now rewrite Hrejected. }
  unfold consensus. rewrite Hc.
  exists e'. eexists. split; [reflexivity|]. split; [|split].
  - apply in_map_iff in Hin. destruct Hin as [it' [E Hin']].
    exists it'. split; [exact Hin'|].
    unfold returned in E. destruct (request a gridImage prompt it') as [[r|]|e0];
      try discriminate; [destruct (text r); discriminate | congruence].
  - reflexivity.
  - unfold schedule. now rewrite length_map, indexed_length, temperatures_length.
Qed.

Lemma rejected_pass_is_fatal_witness :
  exists e' s',
    Analyzer.analyze (num := exact) sampleEnv flakyAnalyzer
      (Bytes 0) None None {| contiguousRegions := None |} usedState
    = (Throw e', s') /\
    (exists it',
       In it' (schedule (num := exact) flakyAnalyzer) /\
       request flakyAnalyzer (Png (inr (Bytes 0)) []) None it' = Throw e') /\
    calls s' = calls usedState
               ++ map (callOf flakyAnalyzer (Png (inr (Bytes 0)) []) None)
                      (schedule flakyAnalyzer) /\
    List.length (map (callOf (num := exact) flakyAnalyzer (Png (inr (Bytes 0)) []) None)
                     (schedule flakyAnalyzer))
      = N.to_nat 4.
Proof.
  apply (rejected_pass_is_fatal (num := exact) sampleEnv flakyAnalyzer
           (Bytes 0) None None
           {| contiguousRegions := None |} usedState (Png (inr (Bytes 0)) [])
           (2%nat, lit 8 10) (BackendError 429)).
  - reflexivity.
  - right. right. left. reflexivity.
  - reflexivity.
Defined.

Lemma logged_shape (v : json) (fields : list (jsstring * json)) :
  logged v = Ok fields ->
  v = JObj fields /\
  exists regions,
    field (js "regions") fields = Some (JArr regions) /\
    Forall hasCellsArray regions.
Proof.
  unfold logged. destruct v as [ | | | | |fs]; try discriminate.
  destruct (field (js "regions") fs) as [[ | | | |regions| ]|] eqn:E;
    try discriminate.
  destruct (forallb regionPrints regions) eqn:Hall; [|discriminate].
  intros [= <-]. split; [reflexivity|]. exists regions. split; [exact E|].
  apply Forall_forall. intros region Hin.
  rewrite forallb_forall in Hall. specialize (Hall region Hin).
  unfold regionPrints in Hall. destruct region as [ | | | | |rf]; try discriminate.
  destruct (field (js "cells") rf) as [[ | | | |items| ]|] eqn:Ec;
    try discriminate.
  exists rf, items. now split.
Qed.

(** X5. Every result that [analyze] returns carries the fields of the
    object that the verification reply decodes to, with a [regions] array
    whose elements are objects with a [cells] array: a reply of another
    shape never comes back as a result. *)
Theorem result_has_regions {num} `{Number num}
    (env : Env num) (a : ImageAnalyzer num) (imageBuffer : Buffer)
    (prompt imagePath : option jsstring) (opts : Options)
    (s s' : State num) (r : AnalysisResponse num)
    (Hrun : Analyzer.analyze env a imageBuffer prompt imagePath opts s = (Ok r, s')) :
  exists highlightedImage verificationPrompt regions,
    replied (Types.analyze (client a) highlightedImage verificationPrompt)
      = Ok (JObj (verified r)) /\
    In (AnalyzeCall highlightedImage verificationPrompt) (calls s') /\
    field (js "regions") (verified r) = Some (JArr regions) /\
    Forall hasCellsArray regions.
Proof.
  rewrite analyze_run, verify_run in Hrun.
  destruct (transformImage _ (gridOptions a imageBuffer)) as [gridImage|e];
    [|discriminate].
  destruct (consensus a prompt gridImage) as [initialCells|e]; [|discriminate].
  destruct (transformImage _ (highlightOptions a imageBuffer initialCells))
    as [highlightedImage|e]; [|discriminate].
  destruct (saved env imagePath highlightedImage) as [u|e]; [|discriminate].
  destruct (replied _) as [v|e] eqn:Hv; [|discriminate].
  cbn [verified_outcome] in Hrun.
  destruct (logged v) as [fields|e] eqn:Hl; [|discriminate].
  injection Hrun as <- <-. cbn [verified].
  destruct (logged_shape v fields Hl) as [-> [regions [Hr Hall]]].
  exists highlightedImage, (promptFor prompt opts initialCells), regions.
  split; [exact Hv|]. split; [|now split].
  unfold afterVerification. cbn [calls]. apply in_or_app. right. now left.
Qed.

Lemma result_has_regions_witness :
  exists r s',
    Analyzer.analyze (num := exact) sampleEnv
      (sampleAnalyzer OpenAIClient (js "gpt-4.1") B2 (Encoded rust) 4)
      (Bytes 0) (Some (js "Find rust spots")) None
      {| contiguousRegions := None |} usedState = (Ok r, s') /\
    exists highlightedImage verificationPrompt regions,
      replied (Types.analyze (sampleClient (num := exact) OpenAIClient
                                (js "gpt-4.1") B2 (Encoded rust))
                             highlightedImage verificationPrompt)
        = Ok (JObj (verified r)) /\
      In (AnalyzeCall highlightedImage verificationPrompt) (calls s') /\
      field (js "regions") (verified r) = Some (JArr regions) /\
      Forall hasCellsArray regions.
Proof.
  eexists. eexists. split; [vm_compute; reflexivity|].
  apply (result_has_regions (num := exact) sampleEnv
           (sampleAnalyzer OpenAIClient (js "gpt-4.1") B2 (Encoded rust) 4)
           (Bytes 0) (Some (js "Find rust spots")) None
           {| contiguousRegions := None |} usedState).
  vm_compute. reflexivity.
Defined.

(** X6. An analyzer built for Anthropic without a model and without a
    client of its own names the default model claude-3-5-sonnet-latest,
    which the price table does not have: whatever the tokens, its cost
    is 0. *)
Theorem default_models_are_unpriced {num} `{Number num}
    (env : Env num) (config : LLMConfig num) (grid : GridConfig)
    (a : ImageAnalyzer num) (t : Tokens)
    (Hprovider : provider config = anthropic)
    (Hmodel : Types.model config = None)
    (Hclient : Types.client config = None)
    (Hnew : new_ImageAnalyzer env config grid = Ok a) :
  class (client a) = AnthropicClient /\
  modelName a = js "claude-3-5-sonnet-latest" /\
  calculateCost a t = lit 0 1.
Proof.
  unfold new_ImageAnalyzer, createClient in Hnew.
  rewrite Hmodel, Hclient, Hprovider in Hnew.
  injection Hnew as <-. repeat split.
Qed.

Lemma default_models_are_unpriced_witness :
  exists a,
    new_ImageAnalyzer (num := exact) sampleEnv
      {| provider := anthropic; model := None; Types.numPasses := None;
         Types.client := None |} {| rows := 5; cols := 5 |} = Ok a /\
    class (client a) = AnthropicClient /\
    modelName a = js "claude-3-5-sonnet-latest" /\
    calculateCost a {| Analyzer.input := 1000000; Analyzer.output := 1000000 |}
      = lit 0 1.
Proof.
  eexists. split; [reflexivity|].
  apply (default_models_are_unpriced (num := exact) sampleEnv
           {| provider := anthropic; model := None; Types.numPasses := None;
              Types.client := None |} {| rows := 5; cols := 5 |});
    reflexivity.
Defined.

(** X7. The consensus hands only strings to the renderer: the cells of an
    aggregate are all strings, so once the overlay step has succeeded and
    the passes have yielded an aggregate, the highlight render succeeds
    too. *)
Theorem aggregate_is_drawable {num} `{Number num}
    (env : Env num) (a : ImageAnalyzer num) (imageBuffer gridImage : Buffer)
    (prompt : option jsstring) (initialCells : list json)
    (Hgrid : transformImage (Analyzer.metadata env) (gridOptions a imageBuffer)
             = Ok gridImage)
    (Hcells : consensus a prompt gridImage = Ok initialCells) :
  forallb isString initialCells = true /\
  exists width height,
    transformImage (Analyzer.metadata env) (highlightOptions a imageBuffer initialCells)
    = Ok (Png (inr imageBuffer)
              [HighlightLayer
                 [{| title := [];
                     description := js "Initial pass";
                     details := js "Pending verification";
                     cells := initialCells |}]
                 (Analyzer.gridConfig a) width height [highlight]]).
Proof.
  assert (forallb isString initialCells = true) as Hstr.
  { unfold consensus in Hcells. destruct (collect _) as [results|e]; [|discriminate].
    now apply (allCells_isString results). }
  split; [exact Hstr|].
  unfold transformImage, gridOptions in Hgrid. cbn in Hgrid.
  unfold transformImage, highlightOptions. cbn.
  destruct (Analyzer.metadata env (inr imageBuffer)) as [[w h]|e]; [|discriminate].
  destruct ((w =? 0) || (h =? 0)); [discriminate|].
  rewrite Hstr. cbn. eauto.
Qed.

Lemma aggregate_is_drawable_witness :
  forallb isString [JStr (js "B2"); JStr (js "B2"); JStr (js "B2"); JStr (js "B2")]
    = true /\
  exists width height,
    transformImage (Analyzer.metadata (num := exact) sampleEnv)
      (highlightOptions (num := exact)
         (sampleAnalyzer OpenAIClient (js "gpt-4.1") B2 (Encoded rust) 4) (Bytes 0)
         [JStr (js "B2"); JStr (js "B2"); JStr (js "B2"); JStr (js "B2")])
    = Ok (Png (inr (Bytes 0))
              [HighlightLayer
                 [{| title := [];
                     description := js "Initial pass";
                     details := js "Pending verification";
                     cells := [JStr (js "B2"); JStr (js "B2");
                               JStr (js "B2"); JStr (js "B2")] |}]
                 {| rows := 5; cols := 5 |} width height [highlight]]).
Proof.
  apply (aggregate_is_drawable (num := exact) sampleEnv
           (sampleAnalyzer OpenAIClient (js "gpt-4.1") B2 (Encoded rust) 4)
           (Bytes 0) (Png (inr (Bytes 0)) []) (Some (js "Find rust spots"))).
  - reflexivity.
  - reflexivity.
Defined.

(** X8. In the flow of [Throughmark.analyze] the grid is drawn once: the
    verification image made from the file carries one grid layer, and the
    image that [analyze] then sends to the passes, as either image of the
    pair, is that buffer with nothing more over it. *)
Theorem grid_is_drawn_once {num} `{Number num}
    (env : Env num) (a : ImageAnalyzer num) (config : GridConfig)
    (path : jsstring) (overlaid : Buffer)
    (prompt imagePath : option jsstring) (opts : Options) (s : State num)
    (Hmade : Throughmark.generateVerificationImage (Analyzer.metadata env) config path
             = Ok overlaid) :
  gridLayers overlaid = 1%nat /\
  exists log,
    calls (snd (Analyzer.analyze env a overlaid prompt imagePath opts s))
      = calls s ++ log /\
    forall index original gridImage adjusted temp,
      In (PairCall index original gridImage adjusted temp) log ->
      original = Png (inr overlaid) [] /\
      gridImage = Png (inr overlaid) [] /\
      gridLayers gridImage = 1%nat.
Proof.
  assert (gridLayers overlaid = 1%nat) as Hone.
  { unfold Throughmark.generateVerificationImage, transformImage in Hmade.
    cbn in Hmade.
    destruct (Analyzer.metadata env (inl path)) as [[w h]|e]; [|discriminate].
    destruct ((w =? 0) || (h =? 0)); [discriminate|].
    now injection Hmade as <-. }
  split; [exact Hone|].
  assert (forall l index original gridImage adjusted temp,
            In (PairCall index original gridImage adjusted temp)
               (map (callOf a (Png (inr overlaid) []) prompt) l) ->
            original = Png (inr overlaid) [] /\
            gridImage = Png (inr overlaid) [] /\
            gridLayers gridImage = 1%nat) as Hpairs.
  { intros l index original g adjusted temp Hin.
    apply in_map_iff in Hin. destruct Hin as [it [E _]].
    unfold callOf in E. injection E as _ <- <- _ _.
    repeat split. cbn. exact Hone. }
  destruct (analyze_log env a overlaid prompt imagePath opts s)
    as [Hlog | [rest [Hlog Hrest]]].
  - exists []. rewrite app_nil_r. split; [exact Hlog | intros ? ? ? ? ? []].
  - eexists. split; [exact Hlog|].
    intros index original g adjusted temp Hin.
    apply in_app_or in Hin. destruct Hin as [Hin|Hin]; [now apply (Hpairs _ _ _ _ _ _ Hin)|].
    destruct Hrest as [-> | [h [cells ->]]]; [destruct Hin|].
    destruct Hin as [Hin|[]]. discriminate Hin.
Qed.

Lemma grid_is_drawn_once_witness :
  gridLayers (Png (inl (js "car.jpg")) [GridLayer {| rows := 5; cols := 5 |} 500 500])
    = 1%nat /\
  exists log,
    calls (snd (Analyzer.analyze (num := exact) sampleEnv
                  (sampleAnalyzer OpenAIClient (js "gpt-4.1") B2 (Encoded rust) 4)
                  (Png (inl (js "car.jpg")) [GridLayer {| rows := 5; cols := 5 |} 500 500])
                  None None {| contiguousRegions := None |} usedState))
      = calls usedState ++ log /\
    forall index original gridImage adjusted temp,
      In (PairCall index original gridImage adjusted temp) log ->
      original = Png (inr (Png (inl (js "car.jpg"))
                               [GridLayer {| rows := 5; cols := 5 |} 500 500])) [] /\
      gridImage = Png (inr (Png (inl (js "car.jpg"))
                                [GridLayer {| rows := 5; cols := 5 |} 500 500])) [] /\
      gridLayers gridImage = 1%nat.
Proof.
  apply (grid_is_drawn_once (num := exact) sampleEnv
           (sampleAnalyzer OpenAIClient (js "gpt-4.1") B2 (Encoded rust) 4)
           {| rows := 5; cols := 5 |} (js "car.jpg")).
  reflexivity.
Defined.

End RunProperties.

(* ================================================================== *)
(** * Facts about the accuracy scores *)
(* ================================================================== *)

Module AccuracyFacts.
Import Accuracy VoteFacts.

Lemma Set_has_In (s : list jsstring) (x : jsstring) :
  Set_has s x = true <-> In x s.
Proof.
  unfold Set_has. rewrite existsb_exists. split.
  - intros [y [Hy E]]. apply str_eqb_eq in E. now subst.
  - intros Hx. exists x. split; [exact Hx | apply str_eqb_refl].
Qed.

Lemma Set_has_not_In (s : list jsstring) (x : jsstring) :
  negb (Set_has s x) = true <-> ~ In x s.
Proof.
  rewrite negb_true_iff, <- Set_has_In. now destruct (Set_has s x).
Qed.

Lemma Set_add_spec (s : list jsstring) (x : jsstring) :
  NoDup s ->
  NoDup (Set_add s x) /\ forall y, In y (Set_add s x) <-> In y s \/ y = x.
Proof.
  intros Hs. unfold Set_add. destruct (Set_has s x) eqn:E.
  - apply Set_has_In in E. split; [exact Hs|].
    intros y. split; [now left | intros [H| ->]; assumption].
  - split.
    + apply NoDup_app; [exact Hs | repeat constructor; intros [] |].
      intros y Hy [<-|[]]. apply Set_has_In in Hy. congruence.
    + intros y. rewrite in_app_iff. cbn. intuition.
Qed.

Lemma fold_Set (l s : list jsstring) :
  NoDup s ->
  NoDup (fold_left Set_add l s) /\
  forall y, In y (fold_left Set_add l s) <-> In y s \/ In y l.
Proof.
  revert s. induction l as [|x l IH]; intros s Hs; cbn [fold_left].
  - split; [exact Hs | cbn; intuition].
  - destruct (Set_add_spec s x Hs) as [Hn Hin].
    destruct (IH (Set_add s x) Hn) as [Hn' Hin'].
    split; [exact Hn'|]. intros y. rewrite Hin', Hin. cbn. intuition.
Qed.

Lemma new_Set_NoDup (l : list jsstring) : NoDup (new_Set l).
Proof. apply (fold_Set l []). constructor. Qed.

Lemma new_Set_In (l : list jsstring) (y : jsstring) : In y (new_Set l) <-> In y l.
Proof.
  unfold new_Set. rewrite (proj2 (fold_Set l [] (NoDup_nil _)) y). cbn. intuition.
Qed.

Lemma new_Set_nil (l : list jsstring) : new_Set l = [] <-> l = [].
Proof.
  split; [|now intros ->].
  intros E. destruct l as [|x l]; [reflexivity|].
  assert (In x (new_Set (x :: l))) as H by (apply new_Set_In; now left).
  rewrite E in H. destruct H.
Qed.

Lemma new_Set_length (l : list jsstring) :
  (List.length (new_Set l) <= List.length l)%nat.
Proof.
  apply NoDup_incl_length; [apply new_Set_NoDup|].
  intros y Hy. now apply new_Set_In.
Qed.

Lemma filter_nil_iff {A} (f : A -> bool) (l : list A) :
  filter f l = [] <-> forall x, In x l -> f x = false.
Proof.
  induction l as [|x l IH]; cbn [filter]; [now split|].
  destruct (f x) eqn:E; split.
  - discriminate.
  - intros H. specialize (H x (or_introl eq_refl)). congruence.
  - intros H y [<-|Hy]; [exact E | now apply IH].
  - intros H. apply IH. intros y Hy. apply H. now right.
Qed.

Lemma filter_length_le {A} (f : A -> bool) (l : list A) :
  (List.length (filter f l) <= List.length l)%nat.
Proof.
  induction l as [|x l IH]; cbn [filter]; [constructor|].
  destruct (f x); cbn [List.length]; lia.
Qed.

Lemma filter_split_length {A} (f : A -> bool) (l : list A) :
  (List.length (filter f l) + List.length (filter (fun x => negb (f x)) l))%nat
  = List.length l.
Proof.
  induction l as [|x l IH]; cbn [filter]; [reflexivity|].
  destruct (f x); cbn [negb List.length]; lia.
Qed.

(** The quotient of two counts in exact arithmetic. *)
Lemma exact_ratio (a b : nat) :
  (0 < b)%nat ->
  exists q,
    div (ofN (N.of_nat a)) (ofN (N.of_nat b)) = Fin q /\
    (q == (Z.of_nat a # 1) / (Z.of_nat b # 1))%Q.
Proof.
  intros Hb.
  cbn [div ofN lit exact_Number exact_div].
  rewrite !nat_N_Z.
  rewrite TemperatureProperties.positive_sign by lia.
  eexists. split; [reflexivity|]. now rewrite !Qred_correct.
Qed.

Lemma ratio_bounds (a b : nat) (q : Q) :
  (0 < b)%nat -> (a <= b)%nat ->
  (q == (Z.of_nat a # 1) / (Z.of_nat b # 1))%Q -> (0 <= q <= 1)%Q.
Proof.
  intros Hb Hab ->.
  assert (0 < Z.of_nat b # 1)%Q as Hpos by (unfold Qlt; cbn; lia).
  split.
  - apply Qle_shift_div_l; [exact Hpos|]. rewrite Qmult_0_l.
    unfold Qle. cbn [Qnum Qden]. lia.
  - apply Qle_shift_div_r; [exact Hpos|]. rewrite Qmult_1_l.
    unfold Qle. cbn [Qnum Qden]. lia.
Qed.

End AccuracyFacts.

(* ================================================================== *)
(** * Properties of the accuracy scores *)
(* ================================================================== *)

Module AccuracyProperties.
Import Accuracy VoteFacts AccuracyFacts.

(** X9. [calculateAccuracy] sorts the cells into three lists without
    repeats: found are the cells of the truth file that the analysis
    names, missed the cells of the truth file that it does not name, extra
    the cells that it names and the truth file does not have; an error in
    reading the truth file is passed on. *)
Theorem accuracy_partitions {num} `{Number num}
    (analysis : list (list jsstring)) (truth : list jsstring) :
  (forall e, calculateAccuracy analysis (Throw e) = Throw e) /\
  exists score,
    calculateAccuracy analysis (Ok truth) = Ok score /\
    NoDup (foundCells score) /\ NoDup (missedCells score) /\
    NoDup (extraCells score) /\
    (forall c, In c (foundCells score)
               <-> In c truth /\ In c (List.concat analysis)) /\
    (forall c, In c (missedCells score)
               <-> In c truth /\ ~ In c (List.concat analysis)) /\
    (forall c, In c (extraCells score)
               <-> In c (List.concat analysis) /\ ~ In c truth) /\
    (List.length (foundCells score) + List.length (missedCells score)
     <= List.length truth)%nat.
Proof.
  split; [reflexivity|].
  eexists. split; [reflexivity|]. cbn [foundCells missedCells extraCells].
  split; [apply NoDup_filter, new_Set_NoDup|].
  split; [apply NoDup_filter, new_Set_NoDup|].
  split; [apply NoDup_filter, new_Set_NoDup|].
  split.
  { intros c. now rewrite filter_In, new_Set_In, Set_has_In, new_Set_In. }
  split.
  { intros c. now rewrite filter_In, new_Set_In, Set_has_not_In, new_Set_In. }
  split.
  { intros c. now rewrite filter_In, new_Set_In, Set_has_not_In, new_Set_In. }
  rewrite filter_split_length. apply new_Set_length.
Qed.

(** X10. In exact arithmetic precision and recall lie between 0 and 1.
    Recall is 1 when the truth file has no cells, whatever the analysis
    names, and precision is 0 when the analysis names no cell. *)
Theorem accuracy_ratios (analysis : list (list jsstring)) (truth : list jsstring) :
  exists score p r,
    calculateAccuracy (num := exact) analysis (Ok truth) = Ok score /\
    precision score = Fin p /\ recall score = Fin r /\
    (0 <= p <= 1)%Q /\ (0 <= r <= 1)%Q /\
    (truth = [] -> r = 1%Q) /\
    (List.concat analysis = [] -> p = 0%Q).
Proof.
  unfold calculateAccuracy.
  set (truthCells := new_Set truth).
  set (found := new_Set (List.concat analysis)).
  set (correct := filter (Set_has found) truthCells).
  assert (List.length correct <= List.length truthCells)%nat as Ht
    by apply filter_length_le.
  assert (List.length correct <= List.length found)%nat as Hf.
  { apply NoDup_incl_length; [apply NoDup_filter, new_Set_NoDup|].
    intros c Hc. apply filter_In in Hc. now apply Set_has_In. }
  assert (exists p,
            (if (List.length found =? 0)%nat then lit 0 1
             else div (ofN (N.of_nat (List.length correct)))
                      (ofN (N.of_nat (List.length found)))) = Fin p /\
            (0 <= p <= 1)%Q /\ (List.concat analysis = [] -> p = 0%Q))
    as [p [Hp [Hpb Hp0]]].
  { destruct (List.length found =? 0)%nat eqn:E.
    - exists 0%Q. split; [reflexivity|]. split; [split; discriminate | reflexivity].
    - apply Nat.eqb_neq in E.
      destruct (exact_ratio (List.length correct) (List.length found)) as [q [-> Hq]];
        [lia|].
      exists q. split; [reflexivity|]. split.
      + apply (ratio_bounds (List.length correct) (List.length found)); [lia | exact Hf | exact Hq].
      + intros Hnil. exfalso. apply E. unfold found. now rewrite Hnil. }
  assert (exists r,
            (if (List.length truthCells =? 0)%nat then lit 1 1
             else div (ofN (N.of_nat (List.length correct)))
                      (ofN (N.of_nat (List.length truthCells)))) = Fin r /\
            (0 <= r <= 1)%Q /\ (truth = [] -> r = 1%Q))
    as [r [Hr [Hrb Hr1]]].
  { destruct (List.length truthCells =? 0)%nat eqn:E.
    - exists 1%Q. split; [reflexivity|]. split; [split; discriminate | reflexivity].
    - apply Nat.eqb_neq in E.
      destruct (exact_ratio (List.length correct) (List.length truthCells))
        as [q [-> Hq]]; [lia|].
      exists q. split; [reflexivity|]. split.
      + apply (ratio_bounds (List.length correct) (List.length truthCells));
          [lia | exact Ht | exact Hq].
      + intros Hnil. exfalso. apply E. unfold truthCells. now rewrite Hnil. }
  eexists. exists p, r. split; [reflexivity|].
  cbn [precision recall]. now repeat split.
Qed.

(** X11. [compareAnalyses] reports no change exactly when the two
    analyses name the same cells and have the same number of regions; it
    never reports more than three. *)
Theorem no_change_is_same_cells (initial verified : list (list jsstring)) :
  (compareAnalyses initial verified = [] <->
   (forall c, In c (List.concat initial) <-> In c (List.concat verified)) /\
   List.length initial = List.length verified) /\
  (List.length (compareAnalyses initial verified) <= 3)%nat.
Proof.
  unfold compareAnalyses.
  set (removed := filter (fun cell => negb (Set_has (new_Set (List.concat verified)) cell))
                         (new_Set (List.concat initial))).
  set (added := filter (fun cell => negb (Set_has (new_Set (List.concat initial)) cell))
                       (new_Set (List.concat verified))).
  assert (removed = [] <->
          forall c, In c (List.concat initial) -> In c (List.concat verified)) as Hrem.
  { unfold removed. rewrite filter_nil_iff. split.
    - intros Hall c Hc. apply new_Set_In, Set_has_In.
      specialize (Hall c (proj2 (new_Set_In _ c) Hc)).
      now apply negb_false_iff in Hall.
    - intros Hall c Hc. apply negb_false_iff, Set_has_In, new_Set_In, Hall.
      now apply new_Set_In. }
  assert (added = [] <->
          forall c, In c (List.concat verified) -> In c (List.concat initial)) as Hadd.
  { unfold added. rewrite filter_nil_iff. split.
    - intros Hall c Hc. apply new_Set_In, Set_has_In.
      specialize (Hall c (proj2 (new_Set_In _ c) Hc)).
      now apply negb_false_iff in Hall.
    - intros Hall c Hc. apply negb_false_iff, Set_has_In, new_Set_In, Hall.
      now apply new_Set_In. }
  split.
  - split.
    + intros E. apply app_eq_nil in E. destruct E as [E1 E].
      apply app_eq_nil in E. destruct E as [E2 E3].
      destruct removed; [|discriminate]. destruct added; [|discriminate].
      destruct (List.length initial =? List.length verified)%nat eqn:El;
        [|discriminate].
      apply Nat.eqb_eq in El. split; [|exact El].
      intros c. split; [apply Hrem | apply Hadd]; reflexivity.
    + intros [Hsame Hlen].
      rewrite (proj2 Hrem (fun c => proj1 (Hsame c))).
      rewrite (proj2 Hadd (fun c => proj2 (Hsame c))).
      apply Nat.eqb_eq in Hlen. now rewrite Hlen.
  - rewrite !length_app.
    destruct removed, added, (List.length initial =? List.length verified)%nat;
      cbn; lia.
Qed.

End AccuracyProperties.

(* ================================================================== *)
(** * Properties of the accuracy over several images *)
(* ================================================================== *)

Module MetricsProperties.
Import Accuracy Metrics VoteFacts AccuracyFacts.

Lemma fold_sum {A} (f : A -> nat) (l : list A) (k : nat) :
  fold_left (fun sum a => (sum + f a)%nat) l k = (k + list_sum (map f l))%nat.
Proof.
  revert k. induction l as [|x l IH]; intros k; cbn [fold_left map].
  - cbn. lia.
  - rewrite IH. change (list_sum (f x :: map f l)) with (f x + list_sum (map f l))%nat.
    lia.
Qed.

Lemma flat_map_length {A B} (f : A -> list B) (l : list A) :
  List.length (flat_map f l) = list_sum (map (fun x => List.length (f x)) l).
Proof.
  induction l as [|x l IH]; cbn [flat_map map]; [reflexivity|].
  rewrite length_app, IH. reflexivity.
Qed.

Lemma list_sum_le {A} (f g : A -> nat) (l : list A) :
  (forall x, In x l -> (f x <= g x)%nat) ->
  (list_sum (map f l) <= list_sum (map g l))%nat.
Proof.
  induction l as [|x l IH]; intros H; cbn [map]; [constructor|].
  change (list_sum (f x :: map f l)) with (f x + list_sum (map f l))%nat.
  change (list_sum (g x :: map g l)) with (g x + list_sum (map g l))%nat.
  pose proof (H x (or_introl eq_refl)).
  assert (list_sum (map f l) <= list_sum (map g l))%nat
    by (apply IH; intros y Hy; apply H; now right).
  lia.
Qed.

Lemma list_sum_plus {A} (f g : A -> nat) (l : list A) :
  list_sum (map (fun x => (f x + g x)%nat) l)
  = (list_sum (map f l) + list_sum (map g l))%nat.
Proof.
  induction l as [|x l IH]; cbn [map]; [reflexivity|].
  change (list_sum ((f x + g x)%nat :: map (fun x => (f x + g x)%nat) l))
    with (f x + g x + list_sum (map (fun x => (f x + g x)%nat) l))%nat.
  change (list_sum (f x :: map f l)) with (f x + list_sum (map f l))%nat.
  change (list_sum (g x :: map g l)) with (g x + list_sum (map g l))%nat.
  rewrite IH. lia.
Qed.

Lemma correct_extra_split (a : ImageCells) :
  (List.length (correctOf a) + List.length (extraOf a))%nat = List.length (found a).
Proof. unfold correctOf, extraOf. apply filter_split_length. Qed.

Lemma correct_within_truth (a : ImageCells) :
  NoDup (found a) -> (List.length (correctOf a) <= List.length (truth a))%nat.
Proof.
  intros Hf. apply NoDup_incl_length; [now apply NoDup_filter|].
  intros c Hc. unfold correctOf in Hc. apply filter_In in Hc.
  destruct Hc as [_ Hc]. now apply new_Set_In, Set_has_In.
Qed.

(** X12. Over several images every found cell is counted once, as
    correct or as extra: the two lists together are as long as the found
    lists, and in exact arithmetic the precision lies between 0 and 1. The
    cells are matched image by image: a cell is correct only where the
    truth of its own image has it. *)
Theorem overall_precision_is_a_share (analyses : list ImageCells) :
  (List.length (foundCells (calculateOverallAccuracy (num := exact) analyses))
   + List.length (extraCells (calculateOverallAccuracy (num := exact) analyses)))%nat
  = list_sum (map (fun a => List.length (found a)) analyses) /\
  (exists p,
     precision (calculateOverallAccuracy (num := exact) analyses) = Fin p /\
     (0 <= p <= 1)%Q) /\
  (forall c,
     In c (foundCells (calculateOverallAccuracy (num := exact) analyses)) <->
     exists a, In a analyses /\ In c (found a) /\ In c (truth a)).
Proof.
  cbn [calculateOverallAccuracy foundCells extraCells precision].
  rewrite !flat_map_length, !fold_sum. cbn [Nat.add].
  split; [|split].
  - rewrite <- list_sum_plus. f_equal. apply map_ext. intros a.
    apply correct_extra_split.
  - destruct (0 <? list_sum (map (fun a => List.length (found a)) analyses))%nat eqn:E.
    + apply Nat.ltb_lt in E.
      destruct (exact_ratio
                  (list_sum (map (fun a => List.length (correctOf a)) analyses))
                  (list_sum (map (fun a => List.length (found a)) analyses)) E)
        as [q [-> Hq]].
      exists q. split; [reflexivity|].
      refine (ratio_bounds _ _ q E _ Hq).
      apply list_sum_le. intros a _. unfold correctOf. apply filter_length_le.
    + exists 0%Q. split; [reflexivity | split; discriminate].
  - intros c. rewrite in_flat_map. split.
    + intros [a [Ha Hc]]. exists a. split; [exact Ha|].
      unfold correctOf in Hc. apply filter_In in Hc. destruct Hc as [Hf Ht].
      split; [exact Hf | now apply new_Set_In, Set_has_In].
    + intros [a [Ha [Hf Ht]]]. exists a. split; [exact Ha|].
      unfold correctOf. apply filter_In. split; [exact Hf|].
      now apply Set_has_In, new_Set_In.
Qed.

(** X13. Where no image has a cell twice among its found cells, the recall
    over several images lies between 0 and 1 in exact arithmetic. *)
Theorem overall_recall_is_a_share (analyses : list ImageCells)
    (Hfound : forall a, In a analyses -> NoDup (found a)) :
  exists r,
    recall (calculateOverallAccuracy (num := exact) analyses) = Fin r /\
    (0 <= r <= 1)%Q.
Proof.
  cbn [calculateOverallAccuracy recall].
  rewrite !flat_map_length, !fold_sum. cbn [Nat.add].
  destruct (0 <? list_sum (map (fun a => List.length (truth a)) analyses))%nat eqn:E.
  - apply Nat.ltb_lt in E.
    destruct (exact_ratio
                (list_sum (map (fun a => List.length (correctOf a)) analyses))
                (list_sum (map (fun a => List.length (truth a)) analyses)) E)
      as [q [-> Hq]].
    exists q. split; [reflexivity|].
    refine (ratio_bounds _ _ q E _ Hq).
    apply list_sum_le. intros a Ha. apply correct_within_truth, Hfound, Ha.
  - exists 0%Q. split; [reflexivity | split; discriminate].
Qed.

Lemma overall_recall_is_a_share_witness :
  exists r,
    recall (calculateOverallAccuracy (num := exact)
              [{| truth := [js "A1"; js "B1"; js "C1"];
                  found := [js "A1"; js "B1"; js "D1"] |};
               {| truth := [js "D4"; js "E4"]; found := [js "D4"; js "F4"] |}])
      = Fin r /\
    (0 <= r <= 1)%Q.
Proof.
  apply (overall_recall_is_a_share
           [{| truth := [js "A1"; js "B1"; js "C1"];
               found := [js "A1"; js "B1"; js "D1"] |};
            {| truth := [js "D4"; js "E4"]; found := [js "D4"; js "F4"] |}]).
  intros a [<-|[<-|[]]]; cbv;
    repeat (apply NoDup_cons; [simpl; intuition discriminate|]);
    apply NoDup_nil.
Defined.

(** The bound needs its hypothesis: a found list that keeps the votes of a
    cell as repeats, as the regions of an analysis do, gives a recall
    of 2. *)
Example recall_above_one :
  recall (calculateOverallAccuracy (num := exact)
            [{| truth := [js "A1"]; found := [js "A1"; js "A1"] |}])
  = lit 2 1.
Proof. reflexivity. Qed.

End MetricsProperties.
